(** * The task-exchange protocol of a2a-protocols, embedded in Rocq

    Shallow embedding of
      - [a2a_samples/server/tell_time_server.py] (Flask views [agent_card]
        and [handle_task]),
      - [a2a_samples/client/time_client.py] (module-level discovery and
        [send_task]),
      - [google_adk/agent_team/weather_agent.py] ([get_weather]).

    Python values are modelled as the objects [json.loads] produces; Python
    exceptions are explicit results; the wall clock, the HTTP transport,
    [str.lower] and the tool's stdout are inputs of the functions that use
    them. *)

From Stdlib Require Import ZArith List String Ascii Bool Lia DecimalString.
Import ListNotations.

Open Scope string_scope.
Open Scope Z_scope.

Set Warnings "-register-all".

(* ================================================================== *)
(** ** Python values, exceptions and subscripting *)

Module Py.

(** The objects [json.loads] builds.  A [dict] keeps insertion order, so it
    is an association list; its keys are always [str] for decoded JSON.
    A [float] is carried as its binary64 bit pattern: no function below
    looks inside one. *)
Inductive value : Type :=
| PyNone
| PyBool (b : bool)
| PyInt (n : Z)
| PyFloat (bits : Z)
| PyStr (s : string)
| PyList (items : list value)
| PyDict (entries : list (string * value)).

(** What is written between the brackets of [obj[...]]. *)
Inductive subscript : Type :=
| Key (k : string)
| Index (i : Z).

(** The exception classes the three programs raise or let through. *)
Inductive exn : Type :=
| KeyError (arg : subscript)
| IndexError (msg : string)
| TypeError (msg : string)
| BadRequest                      (* werkzeug.exceptions.BadRequest, 400 *)
| UnsupportedMediaType            (* werkzeug.exceptions, 415 *)
| RecursionError (msg : string)   (* json.loads on bytes nested too deep *)
| UnicodeEncodeError (msg : string) (* print of a text stdout cannot encode *)
| JSONDecodeError (msg : string)  (* requests.exceptions.JSONDecodeError *)
| ConnectionError (msg : string)  (* requests.exceptions.ConnectionError *)
| Exception (msg : string).       (* raise Exception(msg) *)

Inductive result (A : Type) : Type :=
| Return (a : A)
| Raise (e : exn).
Arguments Return {A} a.
Arguments Raise {A} e.

Definition bind {A B : Type} (c : result A) (k : A -> result B) : result B :=
  match c with
  | Return a => k a
  | Raise e => Raise e
  end.

(** Decimal text of an integer, as [str(int)] and [{n}] in an f-string. *)
Definition str_of_int (n : Z) : string :=
  NilZero.string_of_int (Z.to_int n).

(** [repr] of a subscript.  The string case is exact for keys made of
    printable characters other than quotes and backslashes, which is what
    the literals ['id'], ['message'], ['parts'] and ['text'] are. *)
Definition repr (k : subscript) : string :=
  match k with
  | Key s => "'" ++ s ++ "'"
  | Index i => str_of_int i
  end.

(** [str(e)].  A [KeyError] prints the [repr] of the missing key; the other
    exceptions carry their message; the two HTTP exceptions print their code,
    name and the description [get_json] raises them with outside debug
    mode. *)
Definition str_of_exn (e : exn) : string :=
  match e with
  | KeyError k => repr k
  | IndexError msg | TypeError msg | RecursionError msg
  | UnicodeEncodeError msg | JSONDecodeError msg
  | ConnectionError msg | Exception msg => msg
  | BadRequest =>
      "400 Bad Request: The browser (or proxy) sent a request that this server could not understand."
  | UnsupportedMediaType =>
      "415 Unsupported Media Type: Did not attempt to load JSON data because the request Content-Type was not 'application/json'."
  end.

Fixpoint lookup (k : string) (entries : list (string * value)) : option value :=
  match entries with
  | [] => None
  | (k', v) :: rest => if String.eqb k k' then Some v else lookup k rest
  end.

(** Positions count from the end when negative, as in Python. *)
Definition position (len i : Z) : option nat :=
  let j := if i <? 0 then i + len else i in
  if (0 <=? j) && (j <? len) then Some (Z.to_nat j) else None.

Definition type_name (v : value) : string :=
  match v with
  | PyNone => "NoneType"
  | PyBool _ => "bool"
  | PyInt _ => "int"
  | PyFloat _ => "float"
  | PyStr _ => "str"
  | PyList _ => "list"
  | PyDict _ => "dict"
  end.

(** [obj[sub]]: the value, or the exception CPython raises. *)
Definition getitem (obj : value) (sub : subscript) : result value :=
  match obj, sub with
  | PyDict entries, Key k =>
      match lookup k entries with
      | Some v => Return v
      | None => Raise (KeyError sub)
      end
  | PyDict _, Index _ => Raise (KeyError sub)
  | PyList items, Index i =>
      match position (Z.of_nat (List.length items)) i with
      | Some n =>
          match nth_error items n with
          | Some v => Return v
          | None => Raise (IndexError "list index out of range")
          end
      | None => Raise (IndexError "list index out of range")
      end
  | PyList _, Key _ =>
      Raise (TypeError "list indices must be integers or slices, not str")
  | PyStr s, Index i =>
      match position (Z.of_nat (String.length s)) i with
      | Some n =>
          match String.get n s with
          | Some c => Return (PyStr (String c ""))
          | None => Raise (IndexError "string index out of range")
          end
      | None => Raise (IndexError "string index out of range")
      end
  | PyStr _, Key _ =>
      Raise (TypeError "string indices must be integers, not 'str'")
  | (PyNone | PyBool _ | PyInt _ | PyFloat _), _ =>
      Raise (TypeError ("'" ++ type_name obj ++ "' object is not subscriptable"))
  end.

(** [needle in haystack] on strings. *)
Fixpoint contains (needle haystack : string) : bool :=
  String.prefix needle haystack
  || match haystack with
     | EmptyString => false
     | String _ rest => contains needle rest
     end.

End Py.

Import Py.

Notation "x <- c ;; k" := (Py.bind c (fun x => k))
  (at level 61, c at next level, right associativity).

(* ================================================================== *)
(** ** [datetime] and [strftime] *)

Module Datetime.

Record datetime : Type := {
  year : Z; month : Z; day : Z;
  hour : Z; minute : Z; second : Z;
  microsecond : Z
}.

(** The field ranges of a clock reading.  [datetime] itself admits years
    from 1; below 1000 the C library's [%Y] is not the same on every
    platform, and no wall clock reads such a year. *)
Definition in_range (d : datetime) : Prop :=
  1000 <= year d <= 9999 /\ 1 <= month d <= 12 /\ 1 <= day d <= 31 /\
  0 <= hour d <= 23 /\ 0 <= minute d <= 59 /\ 0 <= second d <= 59.

(** [s.rjust(width, "0")]: zeros in front, up to [width] characters. *)
Definition zfill (width : nat) (s : string) : string :=
  string_of_list_ascii (repeat "0"%char (width - String.length s)) ++ s.

(** C's [%0wd], behind the numeric directives: the decimal text of [n], with
    zeros in front when it is shorter than [width]. *)
Definition zero_padded (width : nat) (n : Z) : string :=
  zfill width (str_of_int n).

Definition directive (c : ascii) (d : datetime) : string :=
  if Ascii.eqb c "Y" then zero_padded 4 (year d)
  else if Ascii.eqb c "m" then zero_padded 2 (month d)
  else if Ascii.eqb c "d" then zero_padded 2 (day d)
  else if Ascii.eqb c "H" then zero_padded 2 (hour d)
  else if Ascii.eqb c "M" then zero_padded 2 (minute d)
  else if Ascii.eqb c "S" then zero_padded 2 (second d)
  else String "%" (String c "").

(** [d.strftime(fmt)] for the directives above; other characters are
    copied. *)
Fixpoint strftime (fmt : string) (d : datetime) : string :=
  match fmt with
  | EmptyString => ""
  | String c rest =>
      if Ascii.eqb c "%" then
        match rest with
        | String k rest' => directive k d ++ strftime rest' d
        | EmptyString => String c ""
        end
      else String c (strftime rest d)
  end.

End Datetime.

Import Datetime.

(* ================================================================== *)
(** ** The anchored pattern of the timestamp *)

Module Re.

(** One position of a pattern: [\d] or a literal character. *)
Inductive atom : Type :=
| Digit
| Lit (c : ascii).

Definition is_digit (c : ascii) : bool :=
  let n := nat_of_ascii c in (48 <=? n)%nat && (n <=? 57)%nat.

Definition accepts (a : atom) (c : ascii) : bool :=
  match a with
  | Digit => is_digit c
  | Lit l => Ascii.eqb l c
  end.

(** [re.match('^' + p + '$', s)]: every atom takes one character; [$] holds
    at the end of the string and before a final newline. *)
Fixpoint anchored_match (p : list atom) (s : string) : bool :=
  match p, s with
  | [], EmptyString => true
  | [], String c EmptyString => Ascii.eqb c "010"
  | a :: p', String c s' => accepts a c && anchored_match p' s'
  | _, _ => false
  end.

(** [^\d{4}-\d{2}-\d{2} \d{2}:\d{2}:\d{2}$] *)
Definition timestamp_pattern : list atom :=
  repeat Digit 4 ++ [Lit "-"] ++ repeat Digit 2 ++ [Lit "-"] ++
  repeat Digit 2 ++ [Lit " "] ++ repeat Digit 2 ++ [Lit ":"] ++
  repeat Digit 2 ++ [Lit ":"] ++ repeat Digit 2.

Definition is_timestamp (s : string) : bool :=
  anchored_match timestamp_pattern s.

(** Two, and four, decimal digits. *)
Definition two_digits (s : string) : bool :=
  match s with
  | String a (String b EmptyString) => is_digit a && is_digit b
  | _ => false
  end.

Definition four_digits (s : string) : bool :=
  match s with
  | String a (String b rest) => is_digit a && is_digit b && two_digits rest
  | _ => false
  end.

End Re.

Import Re.

(* ================================================================== *)
(** ** The slice of Flask the server uses *)

Module Flask.

(** What [json.loads] makes of the request body: a [ValueError] for bytes
    that are not JSON ([JSONDecodeError], [UnicodeDecodeError]); a
    [RecursionError], with its message, for JSON nested deeper than the
    interpreter's recursion limit; or the decoded value. *)
Inductive decoded : Type :=
| Malformed
| Overflowing (complaint : string)
| Loaded (v : value).

(** An incoming request, as the views read it: [is_json] is true when the
    [Content-Type] header names a JSON media type; [body] is the decoding
    of the bytes that were sent. *)
Record request : Type := {
  is_json : bool;
  body : decoded
}.

(** [request.json] and [request.get_json()]: werkzeug turns the
    [ValueError] of a body that does not decode into [BadRequest], and only
    that: a [RecursionError] passes through as it is.  A media type that is
    not JSON raises, with 415. *)
Definition get_json (r : request) : result value :=
  if is_json r then
    match body r with
    | Loaded v => Return v
    | Malformed => Raise BadRequest
    | Overflowing complaint => Raise (RecursionError complaint)
    end
  else Raise UnsupportedMediaType.

(** What leaves the server.  [Json code v] is [jsonify(v)] sent with status
    [code]; [ErrorPage code] is the HTML page werkzeug renders for an
    exception that left the view. *)
Inductive response : Type :=
| Json (code : Z) (content : value)
| ErrorPage (code : Z).

Definition code_of (r : response) : Z :=
  match r with
  | Json code _ => code
  | ErrorPage code => code
  end.

(** Flask around a view: an [HTTPException] becomes its own page, any other
    exception a 500. *)
Definition full_dispatch (view : result (value * Z)) : response :=
  match view with
  | Return (content, code) => Json code content
  | Raise BadRequest => ErrorPage 400
  | Raise UnsupportedMediaType => ErrorPage 415
  | Raise _ => ErrorPage 500
  end.

End Flask.

Import Flask.

(* ================================================================== *)
(** ** tell_time_server.py *)

Module TimeServer.

Definition agent_info : value :=
  PyDict [
    ("name", PyStr "Time Teller");
    ("description",
      PyStr "An agent that tells the current time based on the provided timezone.");
    ("url", PyStr "http://localhost:5000/tell_time");
    ("capabilities",
      PyDict [("streaming", PyBool false); ("pushNotifications", PyBool false)]);
    ("version", PyStr "1.0.0")
  ].

(** [GET /.well-known/agent.json] *)
Definition agent_card : result (value * Z) :=
  Return (agent_info, 200).

Definition error_body (message : string) : value :=
  PyDict [("status", PyStr "error"); ("message", PyStr message)].

(** The body of the [try]: the two reads of lines 38 and 40. *)
Definition read_fields (data : value) : result (value * value) :=
  task_id <- getitem data (Key "id") ;;
  message <- getitem data (Key "message") ;;
  parts <- getitem message (Key "parts") ;;
  part <- getitem parts (Index 0) ;;
  user_message <- getitem part (Key "text") ;;
  Return (task_id, user_message).

(** [except (KeyError, IndexError, TypeError)] *)
Definition caught (e : exn) : bool :=
  match e with
  | KeyError _ | IndexError _ | TypeError _ => true
  | _ => false
  end.

Definition reply_text (now : datetime) : string :=
  "Current time is: " ++ strftime "%Y-%m-%d %H:%M:%S" now.

Definition reply_message (now : datetime) : value :=
  PyDict [
    ("role", PyStr "agent");
    ("parts", PyList [PyDict [("text", PyStr (reply_text now))]]);
    ("metadata", PyDict [])
  ].

(** [POST /tasks/send]; [now] is what [datetime.now()] reads. *)
Definition handle_task (now : datetime) (req : request) : result (value * Z) :=
  if negb (is_json req) then
    Return (error_body "Invalid JSON format", 400)
  else
    json <- get_json req ;;
    match json with
    | PyNone => Return (error_body "Request body is empty", 400)
    | _ =>
      data <- get_json req ;;
      match read_fields data with
      | Raise e =>
          if caught e then
            Return (error_body ("Invalid task format: " ++ str_of_exn e), 400)
          else Raise e
      | Return (task_id, user_message) =>
          original <- getitem data (Key "message") ;;
          Return (PyDict [
                    ("status", PyStr "success");
                    ("id", task_id);
                    ("messages", PyList [original; reply_message now])
                  ], 200)
      end
    end.

(** The request methods and paths the application routes. *)
Inductive target : Type :=
| GetAgentCard
| PostTasksSend (req : request).

(** The application: one call, one response; nothing is kept between
    calls. *)
Definition serve (now : datetime) (t : target) : response :=
  match t with
  | GetAgentCard => full_dispatch agent_card
  | PostTasksSend req => full_dispatch (handle_task now req)
  end.

(** A run of the server: each call arrives at its own clock reading. *)
Definition run (calls : list (datetime * target)) : list response :=
  map (fun call => serve (fst call) (snd call)) calls.

(** What the client receives: the status and the bytes [encode] writes for
    the content; [encode] stands for the JSON provider behind [jsonify]. *)
Definition on_the_wire (encode : value -> string) (r : response)
  : Z * option string :=
  match r with
  | Json code content => (code, Some (encode content))
  | ErrorPage code => (code, None)
  end.

End TimeServer.

(* ================================================================== *)
(** ** The slice of [requests] the client uses *)

Module Requests.

(** A response object: [res.status_code], [res.text], and what [res.json()]
    gives, [None] standing for a body that is not JSON; [json_error] is then
    the message of the [JSONDecodeError] it raises. *)
Record reply : Type := {
  status_code : Z;
  text : string;
  json : option value;
  json_error : string
}.

Inductive call : Type :=
| GET (url : string)
| POST (url : string) (payload : value).

(** What one call meets: an answer of the remote side, or no answer. *)
Inductive outcome : Type :=
| Answered (r : reply)
| Unreachable (msg : string).

(** The remote side: the outcome of the [n]-th call of a run. *)
Definition network : Type := nat -> call -> outcome.

(** Client code threads the list of the calls it has issued and may raise. *)
Definition client (A : Type) : Type := list call -> result A * list call.

Definition ret {A : Type} (a : A) : client A :=
  fun sent => (Return a, sent).

Definition raise {A : Type} (e : exn) : client A :=
  fun sent => (Raise e, sent).

Definition cbind {A B : Type} (c : client A) (k : A -> client B) : client B :=
  fun sent =>
    match c sent with
    | (Return a, sent') => k a sent'
    | (Raise e, sent') => (Raise e, sent')
    end.

Definition perform (net : network) (c : call) : client reply :=
  fun sent =>
    match net (List.length sent) c with
    | Answered r => (Return r, (sent ++ [c])%list)
    | Unreachable msg => (Raise (ConnectionError msg), (sent ++ [c])%list)
    end.

(** [res.json()] *)
Definition json_of (r : reply) : client value :=
  match json r with
  | Some v => ret v
  | None => raise (JSONDecodeError (json_error r))
  end.

End Requests.

Notation "x <~ c ;; k" := (Requests.cbind c (fun x => k))
  (at level 61, c at next level, right associativity).

(* ================================================================== *)
(** ** time_client.py *)

Module TimeClient.

Import Requests.

Definition base_url : string := "http://localhost:5001".

Section Client.

Variable net : network.

(** Lines 9 to 14, run when the module is loaded; the two [print]s that
    follow do not change what is raised or bound. *)
Definition discover_agent : client value :=
  res <~ perform net (GET (base_url ++ "/.well-known/agent.json")) ;;
  if negb (status_code res =? 200) then
    raise (Exception ("Failed to discover agent: "
                      ++ str_of_int (status_code res) ++ " " ++ text res))
  else
    json_of res.

Definition payload_of (task_id message : string) : value :=
  PyDict [
    ("id", PyStr task_id);
    ("message", PyDict [
       ("role", PyStr "user");
       ("parts", PyList [PyDict [("text", PyStr message)]]);
       ("metadata", PyDict [])
    ])
  ].

Definition send_task (task_id message : string) : client value :=
  response <~ perform net (POST (base_url ++ "/tasks/send")
                                (payload_of task_id message)) ;;
  if status_code response =? 200 then
    json_of response
  else
    raise (Exception ("Failed to send task: "
                      ++ str_of_int (status_code response) ++ " "
                      ++ text response)).

End Client.

End TimeClient.

(* ================================================================== *)
(** ** weather_agent.py: the [get_weather] tool *)

Module Weather.

(** [s.replace(old, new)] for a one-character [old]. *)
Fixpoint replace (old : ascii) (new : string) (s : string) : string :=
  match s with
  | EmptyString => ""
  | String c rest =>
      if Ascii.eqb c old then new ++ replace old new rest
      else String c (replace old new rest)
  end.

(** [key in d] *)
Definition dict_contains (k : string) (entries : list (string * value)) : bool :=
  match lookup k entries with
  | Some _ => true
  | None => false
  end.

Definition mock_weather_db : list (string * value) := [
  ("newyork", PyDict [
     ("status", PyStr "success");
     ("report", PyStr "The weather in New York is sunny with a temperature of 25°C.")]);
  ("london", PyDict [
     ("status", PyStr "success");
     ("report", PyStr "It's cloudy in London with a temperature of 15°C.")]);
  ("tokyo", PyDict [
     ("status", PyStr "success");
     ("report", PyStr "Tokyo is experiencing light rain and a temperature of 18°C.")])
].

(** The line [print] writes on each call. *)
Definition tool_log (city : string) : string :=
  "--- Tool: get_weather called for city: " ++ city ++ " ---".

Section Tool.

(** [print(text)]: what writing the line on [sys.stdout] comes to, nothing
    or the exception the stream raises, such as [UnicodeEncodeError] for a
    text its encoding cannot express. *)
Variable print : string -> result unit.

(** [str.lower]: the Unicode case mapping belongs to the interpreter. *)
Variable lower : string -> string.

Definition normalize (city : string) : string :=
  replace " " "" (lower city).

Definition get_weather (city : string) : result value :=
  _ <- print (tool_log city) ;;
  let city_normalized := normalize city in
  if dict_contains city_normalized mock_weather_db then
    getitem (PyDict mock_weather_db) (Key city_normalized)
  else
    Return (PyDict [
      ("status", PyStr "error");
      ("error_message",
        PyStr ("Sorry, I don't have weather information for '" ++ city ++ "'."))
    ]).

End Tool.

(** [print] on a stream that takes every text. *)
Definition quiet_print (text : string) : result unit := Return tt.

Definition is_ascii (text : string) : bool :=
  forallb (fun c => (nat_of_ascii c <? 128)%nat) (list_ascii_of_string text).

(** [print] on a stdout whose encoding is ASCII, with strict errors;
    [complaint] gives the message of the error for a text. *)
Definition ascii_print (complaint : string -> string) (text : string)
  : result unit :=
  if is_ascii text then Return tt
  else Raise (UnicodeEncodeError (complaint text)).

(** [str.lower] on ASCII text. *)
Definition ascii_lower_char (c : ascii) : ascii :=
  let n := nat_of_ascii c in
  if (65 <=? n)%nat && (n <=? 90)%nat then ascii_of_nat (n + 32) else c.

Fixpoint ascii_lower (s : string) : string :=
  match s with
  | EmptyString => ""
  | String c rest => String (ascii_lower_char c) (ascii_lower rest)
  end.

End Weather.

(* ================================================================== *)
(** ** The protocol's words *)

Module Protocol.

(** A TaskRequest body: an object with a field [id] and a field [message]
    whose [parts] is a list starting with an object that has a [text]. *)
Inductive task_request (data task_id message : value) : Prop :=
| TaskRequest (entries fields part : list (string * value))
              (others : list value) (text : value) :
    data = PyDict entries ->
    lookup "id" entries = Some task_id ->
    lookup "message" entries = Some message ->
    message = PyDict fields ->
    lookup "parts" fields = Some (PyList (PyDict part :: others)) ->
    lookup "text" part = Some text ->
    task_request data task_id message.

(** The ways the claim of the endpoint's validation names for a body to
    fall short of a TaskRequest, each with the text of the exception the
    handler's reads then raise: a missing key gives the key in quotes, an
    empty [parts] gives the list's own complaint. *)
Inductive defect : value -> string -> Prop :=
| MissingId entries :
    lookup "id" entries = None ->
    defect (PyDict entries) "'id'"
| MissingMessage entries task_id :
    lookup "id" entries = Some task_id ->
    lookup "message" entries = None ->
    defect (PyDict entries) "'message'"
| MissingParts entries task_id fields :
    lookup "id" entries = Some task_id ->
    lookup "message" entries = Some (PyDict fields) ->
    lookup "parts" fields = None ->
    defect (PyDict entries) "'parts'"
| EmptyParts entries task_id fields :
    lookup "id" entries = Some task_id ->
    lookup "message" entries = Some (PyDict fields) ->
    lookup "parts" fields = Some (PyList []) ->
    defect (PyDict entries) "list index out of range"
| MissingText entries task_id fields part others :
    lookup "id" entries = Some task_id ->
    lookup "message" entries = Some (PyDict fields) ->
    lookup "parts" fields = Some (PyList (PyDict part :: others)) ->
    lookup "text" part = None ->
    defect (PyDict entries) "'text'".

(** A POST whose media type is JSON and whose body decodes to [data]. *)
Definition json_post (data : value) : request :=
  {| is_json := true; body := Loaded data |}.

(** The success envelope for [task_id], [message] and [reply]. *)
Definition success (task_id message reply : value) : value :=
  PyDict [
    ("status", PyStr "success");
    ("id", task_id);
    ("messages", PyList [message; reply])
  ].

End Protocol.

(* ================================================================== *)
(** ** Sample inputs *)

Import TimeServer Protocol.

Module Samples.

(** [{id: "t1", message: {role: "user", parts: [{text: "hello"}],
    metadata: {}}}] *)
Definition hello_message : value :=
  PyDict [
    ("role", PyStr "user");
    ("parts", PyList [PyDict [("text", PyStr "hello")]]);
    ("metadata", PyDict [])
  ].

Definition hello_task : value :=
  PyDict [("id", PyStr "t1"); ("message", hello_message)].

(** The same task asking for a time zone. *)
Definition tokyo_message : value :=
  PyDict [
    ("role", PyStr "user");
    ("parts", PyList [PyDict [("text", PyStr "What time is it in Asia/Tokyo?")]]);
    ("metadata", PyDict [("timezone", PyStr "Asia/Tokyo")])
  ].

Definition tokyo_task : value :=
  PyDict [("id", PyStr "t1"); ("message", tokyo_message)].

(** A task whose message has an empty [parts] list. *)
Definition empty_parts_task : value :=
  PyDict [
    ("id", PyStr "t1");
    ("message", PyDict [
       ("role", PyStr "user"); ("parts", PyList []); ("metadata", PyDict [])])
  ].

(** A task without [id]. *)
Definition missing_id_task : value :=
  PyDict [("message", hello_message)].

(** A POST with [Content-Type: application/json] whose bytes are not JSON,
    such as [{not json]. *)
Definition broken_json_post : request :=
  {| is_json := true; body := Malformed |}.

(** A POST of plain text: the media type is not JSON. *)
Definition plain_text_post : request :=
  {| is_json := false; body := Malformed |}.

(** A POST with [Content-Type: application/json] whose bytes are a hundred
    thousand opening brackets: JSON nested past the recursion limit. *)
Definition deep_json_post : request :=
  {| is_json := true;
     body := Overflowing
       "maximum recursion depth exceeded while decoding a JSON array from a unicode string" |}.

(** A task whose [id] and [text] are numbers and whose message has neither
    [role] nor [metadata]. *)
Definition numeric_text_task : value :=
  PyDict [
    ("id", PyInt 7);
    ("message", PyDict [("parts", PyList [PyDict [("text", PyInt 42)]])])
  ].

(** What the ASCII codec says of the log line for Zürich. *)
Definition zurich_complaint (text : string) : string :=
  "'ascii' codec can't encode character '\xfc' in position 40: ordinal not in range(128)".

(** 2025-06-01 09:05:07 *)
Definition morning : datetime :=
  {| year := 2025; month := 6; day := 1;
     hour := 9; minute := 5; second := 7; microsecond := 123456 |}.

(** 2031-12-24 23:59:59 *)
Definition evening : datetime :=
  {| year := 2031; month := 12; day := 24;
     hour := 23; minute := 59; second := 59; microsecond := 0 |}.

(** A remote side that answers every call [201 Created] with body [{}]. *)
Definition created : Requests.reply :=
  {| Requests.status_code := 201;
     Requests.text := "{}";
     Requests.json := Some (PyDict []);
     Requests.json_error := "" |}.

Definition always_created : Requests.network :=
  fun _ _ => Requests.Answered created.

(** A remote side that answers every call [200 OK] with body [{}]. *)
Definition ok_empty : Requests.reply :=
  {| Requests.status_code := 200;
     Requests.text := "{}";
     Requests.json := Some (PyDict []);
     Requests.json_error := "" |}.

Definition always_ok : Requests.network :=
  fun _ _ => Requests.Answered ok_empty.

(** Discovery, a task, and discovery again hours later. *)
Definition two_discoveries : list (datetime * target) :=
  [(morning, GetAgentCard);
   (morning, PostTasksSend (json_post hello_task));
   (evening, GetAgentCard)].

End Samples.

Import Samples.

(* ================================================================== *)
(** ** time_client.py as a script *)

Module ClientScript.

Import Requests TimeClient.

Section Script.

Variable net : network.

(** [json.dumps(obj, indent=2)], the text the script prints. *)
Variable dumps : value -> string.

(** Lines 43 to 52, with [task_id] standing for [str(uuid.uuid4())]; the
    result is what is printed, on a stdout that takes the lines.  Every
    exception [send_task] can raise derives from [Exception], so the
    [except] clause takes them all. *)
Definition main (task_id : string) : client (list string) :=
  fun sent =>
    match send_task net task_id "What is the current time?" sent with
    | (Return response, sent') =>
        (Return ["Task response:"; dumps response], sent')
    | (Raise e, sent') =>
        (Return ["Error: " ++ str_of_exn e], sent')
    end.

(** The file run as a program: the module-level discovery with its two
    [print]s, then [main]. *)
Definition script (task_id : string) : client (list string) :=
  agent_info <~ discover_agent net ;;
  printed <~ main task_id ;;
  ret (["Agent discovered:"; dumps agent_info] ++ printed)%list.

End Script.

End ClientScript.

(* ================================================================== *)
(** ** The client talking to this server *)

Module Loopback.

Import Requests TimeClient.

(** [entry] put in its place among entries already sorted by key. *)
Fixpoint insert_entry (entry : string * value) (sorted : list (string * value))
  : list (string * value) :=
  match sorted with
  | [] => [entry]
  | e :: rest =>
      if String.leb (fst entry) (fst e) then entry :: e :: rest
      else e :: insert_entry entry rest
  end.

(** What [jsonify] writes, read back: Flask's JSON provider has
    [sort_keys = True], so the keys of every object come out in order. *)
Fixpoint sort_keys (v : value) : value :=
  match v with
  | PyList items => PyList (map sort_keys items)
  | PyDict entries =>
      PyDict ((fix sorted (es : list (string * value)) : list (string * value) :=
                 match es with
                 | [] => []
                 | (k, x) :: rest => insert_entry (k, sort_keys x) (sorted rest)
                 end) entries)
  | _ => v
  end.

Section Remote.

(** The JSON text of a content, and the text of an error page. *)
Variable encode : value -> string.
Variable page : Z -> string.

(** What the clock reads when the [n]-th call arrives. *)
Variable clock : nat -> datetime.

(** The message of the [JSONDecodeError] for an error page. *)
Variable page_complaint : Z -> string.

(** A server response as the client's [requests] object: [res.json()] of a
    [jsonify] response is its content as [jsonify] wrote it, with the keys of
    every object sorted; an error page is no JSON. *)
Definition reply_of (r : response) : reply :=
  match r with
  | Json code content =>
      {| status_code := code;
         text := encode (sort_keys content);
         json := Some (sort_keys content);
         json_error := "" |}
  | ErrorPage code =>
      {| status_code := code;
         text := page code;
         json := None;
         json_error := page_complaint code |}
  end.

(** The server of tell_time_server.py listening at [base_url].  A [json=]
    payload arrives with a JSON media type and decodes to itself; a known
    path with the other method is 405, any other URL 404. *)
Definition remote : network :=
  fun n c =>
    match c with
    | GET url =>
        if String.eqb url (base_url ++ "/.well-known/agent.json") then
          Answered (reply_of (serve (clock n) GetAgentCard))
        else if String.eqb url (base_url ++ "/tasks/send") then
          Answered (reply_of (ErrorPage 405))
        else Answered (reply_of (ErrorPage 404))
    | POST url payload =>
        if String.eqb url (base_url ++ "/tasks/send") then
          Answered (reply_of (serve (clock n) (PostTasksSend (json_post payload))))
        else if String.eqb url (base_url ++ "/.well-known/agent.json") then
          Answered (reply_of (ErrorPage 405))
        else Answered (reply_of (ErrorPage 404))
    end.

End Remote.

End Loopback.

(* ================================================================== *)
(** ** Reading a decimal text back *)

Module Digits.

(** [int(s)] for a text of decimal digits. *)
Definition int_of_digits (s : string) : Z :=
  fold_left (fun acc c => 10 * acc + (Z.of_nat (nat_of_ascii c) - 48))
            (list_ascii_of_string s) 0.

(** The six fields [strftime] prints; [microsecond] is not among them. *)
Definition same_second (a b : datetime) : Prop :=
  year a = year b /\ month a = month b /\ day a = day b /\
  hour a = hour b /\ minute a = minute b /\ second a = second b.

End Digits.

(* ================================================================== *)
(** ** google_adk/agents/agent.py: the reply [TellTimeAgent.invoke] extracts *)

Module GenAI.

(** [google.genai.types.Part], [Content] and the runner's [Event], as far as
    [invoke] reads them: every field may be [None]. *)
Record Part : Type := { text : option string }.

Record Content : Type := {
  role : option string;
  parts : option (list Part)
}.

Record Event : Type := { content : option Content }.

End GenAI.

Module TellTimeAgent.

Import GenAI.

(** [p.text] when it is truthy: neither [None] nor empty. *)
Definition truthy_text (p : Part) : option string :=
  match text p with
  | Some (String c rest) => Some (String c rest)
  | _ => None
  end.

Fixpoint truthy_texts (ps : list Part) : list string :=
  match ps with
  | [] => []
  | p :: rest =>
      match truthy_text p with
      | Some t => t :: truthy_texts rest
      | None => truthy_texts rest
      end
  end.

(** Lines 98 to 103: the text of the last event, or the empty string. *)
Definition response_text (response_events : list Event) : string :=
  match nth_error response_events (List.length response_events - 1) with
  | None => ""
  | Some last_event =>
      match content last_event with
      | None => ""
      | Some c =>
          match parts c with
          | None | Some [] => ""
          | Some ps => String.concat (String "010" "") (truthy_texts ps)
          end
      end
  end.

End TellTimeAgent.

(* ================================================================== *)
(** ** What the last event says *)

Module AgentWords.

Import GenAI.

(** [t] is the text, neither missing nor empty, of a part of the last of
    [events]. *)
Definition last_event_says (events : list Event) (t : string) : Prop :=
  exists earlier last_event c ps p,
    events = (earlier ++ [last_event])%list /\
    content last_event = Some c /\
    parts c = Some ps /\
    In p ps /\
    text p = Some t /\
    t <> "".

End AgentWords.

(* ================================================================== *)
(** ** More sample inputs *)

Module MoreSamples.

(** [morning] again, read later within the same second. *)
Definition morning_later : datetime :=
  {| year := 2025; month := 6; day := 1;
     hour := 9; minute := 5; second := 7; microsecond := 999999 |}.

(** A remote side that is down: every call answers [503] with a page. *)
Definition unavailable : Requests.reply :=
  {| Requests.status_code := 503;
     Requests.text := "Service Unavailable";
     Requests.json := None;
     Requests.json_error := "Expecting value: line 1 column 1 (char 0)" |}.

Definition always_unavailable : Requests.network :=
  fun _ _ => Requests.Answered unavailable.

(** A remote side whose discovery works and whose task endpoint is down. *)
Definition tasks_unavailable : Requests.network :=
  fun _ c =>
    match c with
    | Requests.GET _ => Requests.Answered ok_empty
    | Requests.POST _ _ => Requests.Answered unavailable
    end.

(** What the runner yields for a reply in two parts, after a tool call that
    carries no text. *)
Definition tool_call_event : GenAI.Event :=
  {| GenAI.content :=
       Some {| GenAI.role := Some "model";
               GenAI.parts := Some [{| GenAI.text := None |}] |} |}.

Definition two_part_event : GenAI.Event :=
  {| GenAI.content :=
       Some {| GenAI.role := Some "model";
               GenAI.parts := Some [{| GenAI.text := Some "2025-06-01" |};
                                    {| GenAI.text := Some "" |};
                                    {| GenAI.text := Some "09:05:07" |}] |} |}.

End MoreSamples.

Import MoreSamples.

(* ================================================================== *)
(** * Properties *)

(** ** Subscripting *)

Lemma getitem_dict entries k v :
  lookup k entries = Some v -> getitem (PyDict entries) (Key k) = Return v.
Proof. intros H; simpl; now rewrite H. Qed.

Lemma getitem_first v rest :
  getitem (PyList (v :: rest)) (Index 0) = Return v.
Proof.
  unfold getitem, position.
  change (0 <? 0) with false; cbv iota.
  replace ((0 <=? 0) && (0 <? Z.of_nat (List.length (v :: rest)))) with true.
  - reflexivity.
  - symmetry; apply andb_true_iff; split; [reflexivity|].
    apply Z.ltb_lt; simpl List.length; lia.
Qed.

(** Subscripting raises nothing but what the handler's [except] names. *)
Lemma getitem_raises_caught obj sub e :
  getitem obj sub = Raise e -> caught e = true.
Proof.
  unfold getitem; intros H.
  destruct obj, sub;
    repeat match type of H with
           | context [match ?x with _ => _ end] => destruct x
           end;
    inversion H; reflexivity.
Qed.

Lemma read_fields_raises_caught data e :
  read_fields data = Raise e -> caught e = true.
Proof.
  unfold read_fields, bind; intros H.
  repeat match type of H with
         | context [match getitem ?o ?s with _ => _ end] =>
             let E := fresh "E" in
             destruct (getitem o s) eqn:E;
             [| inversion H; subst; eapply getitem_raises_caught; eassumption]
         end.
  discriminate.
Qed.

(** The reads of the [try] succeed on a TaskRequest. *)
Lemma read_fields_task_request data task_id message :
  task_request data task_id message ->
  exists text, read_fields data = Return (task_id, text).
Proof.
  intros [entries fields part others text -> Hid Hmsg -> Hparts Htext].
  exists text. unfold read_fields, bind.
  rewrite (getitem_dict _ _ _ Hid), (getitem_dict _ _ _ Hmsg),
    (getitem_dict _ _ _ Hparts), getitem_first, (getitem_dict _ _ _ Htext).
  reflexivity.
Qed.

(** Conversely, they succeed on nothing else. *)
Lemma read_fields_only_task_request data task_id text :
  read_fields data = Return (task_id, text) ->
  exists message, task_request data task_id message.
Proof.
  unfold read_fields, bind; intros H.
  destruct (getitem data (Key "id")) as [tid|] eqn:Eid; [|discriminate].
  destruct (getitem data (Key "message")) as [message|] eqn:Emsg; [|discriminate].
  destruct (getitem message (Key "parts")) as [parts|] eqn:Eparts; [|discriminate].
  destruct (getitem parts (Index 0)) as [part|] eqn:Epart; [|discriminate].
  destruct (getitem part (Key "text")) as [txt|] eqn:Etext; [|discriminate].
  inversion H; subst; clear H.
  destruct data; try discriminate. simpl in Eid, Emsg.
  destruct (lookup "id" entries) eqn:Lid; inversion Eid; subst; clear Eid.
  destruct (lookup "message" entries) eqn:Lmsg; inversion Emsg; subst; clear Emsg.
  destruct message as [| | | | |items|fields]; try discriminate. simpl in Eparts.
  destruct (lookup "parts" fields) eqn:Lparts; inversion Eparts; subst; clear Eparts.
  destruct part as [| | | | |items|pfields]; try discriminate. simpl in Etext.
  destruct (lookup "text" pfields) eqn:Ltext; inversion Etext; subst; clear Etext.
  destruct parts as [| | | |s|items|pentries]; try discriminate.
  - (* a string: its first character is a string, not an object *)
    unfold getitem in Epart.
    destruct (position _ _); [|discriminate].
    destruct (String.get _ _); discriminate.
  - unfold getitem, position in Epart.
    change (0 <? 0) with false in Epart; cbv iota in Epart.
    destruct items as [|first others].
    + discriminate.
    + replace ((0 <=? 0) && (0 <? Z.of_nat (List.length (first :: others))))
        with true in Epart.
      * simpl in Epart. inversion Epart; subst.
        exists (PyDict fields). econstructor; eauto.
      * symmetry; apply andb_true_iff; split; [reflexivity|].
        apply Z.ltb_lt; simpl List.length; lia.
Qed.

(** What the endpoint answers to a TaskRequest. *)
Lemma handle_task_success now data task_id message :
  task_request data task_id message ->
  handle_task now (json_post data)
  = Return (success task_id message (reply_message now), 200).
Proof.
  intros H. destruct (read_fields_task_request _ _ _ H) as [text Hread].
  destruct H as [entries fields part others text' -> Hid Hmsg -> Hparts Htext].
  unfold handle_task, json_post, get_json, bind; cbn [is_json body negb].
  rewrite Hread. rewrite (getitem_dict _ _ _ Hmsg). reflexivity.
Qed.

(** The endpoint answers 200 to a TaskRequest sent as JSON and to nothing
    else. *)
Lemma accepted_is_task_request now req content :
  serve now (PostTasksSend req) = Json 200 content ->
  exists data task_id message,
    req = json_post data /\ task_request data task_id message.
Proof.
  destruct req as [[|] [|complaint|data]];
    unfold serve, handle_task, get_json, bind;
    cbn [is_json body negb full_dispatch]; try discriminate.
  intros H.
  assert (Hread : exists tid txt, read_fields data = Return (tid, txt)).
  { destruct data; try discriminate H;
      match type of H with
      | context [read_fields ?d] =>
          destruct (read_fields d) as [[tid txt]|e] eqn:E;
          [eauto | rewrite (read_fields_raises_caught _ _ E) in H; discriminate H]
      end. }
  destruct Hread as (tid & txt & Hread).
  destruct (read_fields_only_task_request _ _ _ Hread) as [message Hm].
  exists data, tid, message. split; [reflexivity | exact Hm].
Qed.

Lemma hello_task_is_task_request :
  task_request hello_task (PyStr "t1") hello_message.
Proof. econstructor; reflexivity. Qed.

Lemma tokyo_task_is_task_request :
  task_request tokyo_task (PyStr "t1") tokyo_message.
Proof. econstructor; reflexivity. Qed.

(* ------------------------------------------------------------------ *)
(** ** The success envelope *)

(** C1.  For every TaskRequest body the endpoint accepts, the response is a
    200 whose [id] field is the [id] field of the request. *)
Theorem response_id_is_request_id now data task_id message :
  task_request data task_id message ->
  exists content,
    serve now (PostTasksSend (json_post data)) = Json 200 content /\
    getitem data (Key "id") = Return task_id /\
    getitem content (Key "id") = Return task_id.
Proof.
  intros H. exists (success task_id message (reply_message now)).
  unfold serve. rewrite (handle_task_success now _ _ _ H).
  destruct H as [entries fields part others text -> Hid _ _ _ _].
  split; [reflexivity | split; [now apply getitem_dict | reflexivity]].
Qed.

Lemma response_id_is_request_id_witness :
  task_request hello_task (PyStr "t1") hello_message /\
  exists content,
    serve morning (PostTasksSend (json_post hello_task)) = Json 200 content /\
    getitem hello_task (Key "id") = Return (PyStr "t1") /\
    getitem content (Key "id") = Return (PyStr "t1").
Proof.
  split.
  - econstructor; reflexivity.
  - apply (response_id_is_request_id morning hello_task (PyStr "t1") hello_message).
    econstructor; reflexivity.
Defined.

(** C2.  For every TaskRequest body the endpoint accepts, the first element
    of [messages] in the success response is the submitted [message] object
    itself: role, parts and metadata as they were sent. *)
Theorem first_message_is_submitted_message now data task_id message :
  task_request data task_id message ->
  exists content messages,
    serve now (PostTasksSend (json_post data)) = Json 200 content /\
    getitem content (Key "status") = Return (PyStr "success") /\
    getitem data (Key "message") = Return message /\
    getitem content (Key "messages") = Return messages /\
    getitem messages (Index 0) = Return message.
Proof.
  intros H.
  exists (success task_id message (reply_message now)),
    (PyList [message; reply_message now]).
  unfold serve. rewrite (handle_task_success now _ _ _ H).
  destruct H as [entries fields part others text -> _ Hmsg _ _ _].
  split; [reflexivity | split; [reflexivity | split; [| split]]].
  - now apply getitem_dict.
  - reflexivity.
  - apply getitem_first.
Qed.

Lemma first_message_is_submitted_message_witness :
  task_request tokyo_task (PyStr "t1") tokyo_message /\
  exists content messages,
    serve evening (PostTasksSend (json_post tokyo_task)) = Json 200 content /\
    getitem content (Key "status") = Return (PyStr "success") /\
    getitem tokyo_task (Key "message") = Return tokyo_message /\
    getitem content (Key "messages") = Return messages /\
    getitem messages (Index 0) = Return tokyo_message.
Proof.
  split.
  - econstructor; reflexivity.
  - apply (first_message_is_submitted_message
             evening tokyo_task (PyStr "t1") tokyo_message).
    econstructor; reflexivity.
Defined.

(** C10.  For every TaskRequest the success response's [messages] has exactly
    two elements, the submitted message and then one reply; the reply has role
    [agent], exactly one part, and an empty metadata mapping. *)
Theorem messages_are_original_and_one_reply now data task_id message :
  task_request data task_id message ->
  exists content reply part,
    serve now (PostTasksSend (json_post data)) = Json 200 content /\
    getitem content (Key "messages") = Return (PyList [message; reply]) /\
    List.length [message; reply] = 2%nat /\
    getitem reply (Key "role") = Return (PyStr "agent") /\
    getitem reply (Key "parts") = Return (PyList [part]) /\
    getitem reply (Key "metadata") = Return (PyDict []).
Proof.
  intros H.
  exists (success task_id message (reply_message now)), (reply_message now),
    (PyDict [("text", PyStr (reply_text now))]).
  unfold serve. rewrite (handle_task_success now _ _ _ H).
  repeat split.
Qed.

Lemma messages_are_original_and_one_reply_witness :
  task_request hello_task (PyStr "t1") hello_message /\
  exists content reply part,
    serve evening (PostTasksSend (json_post hello_task)) = Json 200 content /\
    getitem content (Key "messages") = Return (PyList [hello_message; reply]) /\
    List.length [hello_message; reply] = 2%nat /\
    getitem reply (Key "role") = Return (PyStr "agent") /\
    getitem reply (Key "parts") = Return (PyList [part]) /\
    getitem reply (Key "metadata") = Return (PyDict []).
Proof.
  split.
  - econstructor; reflexivity.
  - apply (messages_are_original_and_one_reply
             evening hello_task (PyStr "t1") hello_message).
    econstructor; reflexivity.
Defined.

(** C7.  The reply does not depend on the user message: two TaskRequests with
    the same id handled at the same clock reading get success responses that
    are the same envelope around the same reply, and differ at most in the
    echoed [messages[0]]; a time zone named in the request changes nothing. *)
Theorem reply_ignores_user_message now data1 data2 task_id message1 message2 :
  task_request data1 task_id message1 ->
  task_request data2 task_id message2 ->
  exists reply,
    serve now (PostTasksSend (json_post data1))
    = Json 200 (success task_id message1 reply) /\
    serve now (PostTasksSend (json_post data2))
    = Json 200 (success task_id message2 reply) /\
    getitem reply (Key "parts")
    = Return (PyList [PyDict [("text", PyStr (reply_text now))]]).
Proof.
  intros H1 H2. exists (reply_message now). unfold serve.
  rewrite (handle_task_success now _ _ _ H1), (handle_task_success now _ _ _ H2).
  repeat split.
Qed.

Lemma reply_ignores_user_message_witness :
  task_request hello_task (PyStr "t1") hello_message /\
  task_request tokyo_task (PyStr "t1") tokyo_message /\
  exists reply,
    serve morning (PostTasksSend (json_post hello_task))
    = Json 200 (success (PyStr "t1") hello_message reply) /\
    serve morning (PostTasksSend (json_post tokyo_task))
    = Json 200 (success (PyStr "t1") tokyo_message reply) /\
    getitem reply (Key "parts")
    = Return (PyList [PyDict [("text", PyStr (reply_text morning))]]).
Proof.
  split; [|split].
  - econstructor; reflexivity.
  - econstructor; reflexivity.
  - apply (reply_ignores_user_message morning hello_task tokyo_task (PyStr "t1")
             hello_message tokyo_message); econstructor; reflexivity.
Defined.

(* ------------------------------------------------------------------ *)
(** ** The reply text *)

(** A property of every integer from [lo] up to [lo + count - 1], checked by
    running through them. *)
Lemma checked_on_range (check : Z -> bool) (lo : Z) (count : nat) :
  forallb (fun k => check (lo + Z.of_nat k)) (seq 0 count) = true ->
  forall n, lo <= n < lo + Z.of_nat count -> check n = true.
Proof.
  intros Hall n Hn. rewrite forallb_forall in Hall.
  specialize (Hall (Z.to_nat (n - lo))).
  replace (lo + Z.of_nat (Z.to_nat (n - lo))) with n in Hall by lia.
  apply Hall, in_seq. lia.
Qed.

Lemma zero_padded_two_digits n :
  0 <= n <= 99 -> two_digits (zero_padded 2 n) = true.
Proof.
  intros H.
  apply (checked_on_range (fun n => two_digits (zero_padded 2 n)) 0 100).
  - vm_compute; reflexivity.
  - lia.
Qed.

Lemma zero_padded_four_digits n :
  1000 <= n <= 9999 -> four_digits (zero_padded 4 n) = true.
Proof.
  intros H.
  apply (checked_on_range (fun n => four_digits (zero_padded 4 n)) 1000
           (Z.to_nat 9000)).
  - vm_compute; reflexivity.
  - lia.
Qed.

Lemma two_digits_inv s :
  two_digits s = true ->
  exists a b, s = String a (String b "") /\ is_digit a = true /\ is_digit b = true.
Proof.
  destruct s as [|a [|b [|c rest]]]; try discriminate.
  simpl; intros H; apply andb_true_iff in H. eauto.
Qed.

Lemma four_digits_inv s :
  four_digits s = true ->
  exists a b c d,
    s = String a (String b (String c (String d ""))) /\
    is_digit a = true /\ is_digit b = true /\
    is_digit c = true /\ is_digit d = true.
Proof.
  destruct s as [|a [|b rest]]; try discriminate.
  simpl; intros H. apply andb_true_iff in H; destruct H as [H Hrest].
  apply andb_true_iff in H; destruct H as [Ha Hb].
  destruct (two_digits_inv _ Hrest) as (c & d & -> & Hc & Hd).
  exists a, b, c, d; auto.
Qed.

Lemma append_empty_r (s : string) : s ++ "" = s.
Proof. induction s as [|c s IH]; simpl; [reflexivity | now rewrite IH]. Qed.

(** The text [strftime] gives for the handler's format. *)
Lemma strftime_iso now :
  strftime "%Y-%m-%d %H:%M:%S" now
  = zero_padded 4 (year now) ++ "-" ++ zero_padded 2 (month now) ++ "-"
    ++ zero_padded 2 (day now) ++ " " ++ zero_padded 2 (hour now) ++ ":"
    ++ zero_padded 2 (minute now) ++ ":" ++ zero_padded 2 (second now).
Proof.
  cbn [strftime directive Ascii.eqb Bool.eqb append].
  now rewrite append_empty_r.
Qed.

Lemma strftime_is_timestamp now :
  in_range now ->
  is_timestamp (strftime "%Y-%m-%d %H:%M:%S" now) = true.
Proof.
  intros (Hy & Hm & Hd & HH & HM & HS).
  rewrite strftime_iso.
  destruct (four_digits_inv _ (zero_padded_four_digits (year now) Hy))
    as (y1 & y2 & y3 & y4 & -> & ? & ? & ? & ?).
  destruct (two_digits_inv _ (zero_padded_two_digits (month now) ltac:(lia)))
    as (m1 & m2 & -> & ? & ?).
  destruct (two_digits_inv _ (zero_padded_two_digits (day now) ltac:(lia)))
    as (d1 & d2 & -> & ? & ?).
  destruct (two_digits_inv _ (zero_padded_two_digits (hour now) ltac:(lia)))
    as (h1 & h2 & -> & ? & ?).
  destruct (two_digits_inv _ (zero_padded_two_digits (minute now) ltac:(lia)))
    as (n1 & n2 & -> & ? & ?).
  destruct (two_digits_inv _ (zero_padded_two_digits (second now) ltac:(lia)))
    as (s1 & s2 & -> & ? & ?).
  unfold is_timestamp, timestamp_pattern.
  cbn [repeat app append anchored_match accepts Ascii.eqb Bool.eqb].
  repeat match goal with H : is_digit _ = true |- _ => rewrite H; clear H end.
  reflexivity.
Qed.

(** C3, as the code has it.  For every TaskRequest handled at a clock reading
    in range, the reply has role [agent] and a single part whose text is
    ["Current time is: "] followed by the reading formatted as
    [YYYY-MM-DD HH:MM:SS]; that timestamp, not the whole text, matches
    [^\d{4}-\d{2}-\d{2} \d{2}:\d{2}:\d{2}$]. *)
Theorem reply_text_is_prefixed_timestamp now data task_id message :
  in_range now ->
  task_request data task_id message ->
  exists content reply stamp,
    serve now (PostTasksSend (json_post data)) = Json 200 content /\
    getitem content (Key "messages") = Return (PyList [message; reply]) /\
    getitem reply (Key "role") = Return (PyStr "agent") /\
    getitem reply (Key "parts")
    = Return (PyList [PyDict [("text", PyStr ("Current time is: " ++ stamp))]]) /\
    stamp = strftime "%Y-%m-%d %H:%M:%S" now /\
    is_timestamp stamp = true.
Proof.
  intros Hnow H.
  exists (success task_id message (reply_message now)), (reply_message now),
    (strftime "%Y-%m-%d %H:%M:%S" now).
  unfold serve. rewrite (handle_task_success now _ _ _ H).
  do 5 (split; [reflexivity|]). now apply strftime_is_timestamp.
Qed.

Lemma morning_in_range : in_range morning.
Proof. unfold in_range, morning; cbn; lia. Qed.

Lemma reply_text_is_prefixed_timestamp_witness :
  in_range morning /\
  task_request hello_task (PyStr "t1") hello_message /\
  exists content reply stamp,
    serve morning (PostTasksSend (json_post hello_task)) = Json 200 content /\
    getitem content (Key "messages") = Return (PyList [hello_message; reply]) /\
    getitem reply (Key "role") = Return (PyStr "agent") /\
    getitem reply (Key "parts")
    = Return (PyList [PyDict [("text", PyStr ("Current time is: " ++ stamp))]]) /\
    stamp = strftime "%Y-%m-%d %H:%M:%S" morning /\
    is_timestamp stamp = true.
Proof.
  split; [|split].
  - unfold in_range, morning; cbn; lia.
  - econstructor; reflexivity.
  - apply (reply_text_is_prefixed_timestamp
             morning hello_task (PyStr "t1") hello_message).
    + unfold in_range, morning; cbn; lia.
    + econstructor; reflexivity.
Defined.

(** C3 as stated fails: the text of the reply to the sample task at
    2025-06-01 09:05:07 starts with ["Current time is: "], so the anchored
    pattern rejects it. *)
Lemma reply_text_is_not_a_bare_timestamp :
  in_range morning /\
  task_request hello_task (PyStr "t1") hello_message /\
  serve morning (PostTasksSend (json_post hello_task))
  = Json 200
      (success (PyStr "t1") hello_message
         (PyDict [
            ("role", PyStr "agent");
            ("parts", PyList [PyDict [("text", PyStr "Current time is: 2025-06-01 09:05:07")]]);
            ("metadata", PyDict [])])) /\
  is_timestamp "Current time is: 2025-06-01 09:05:07" = false /\
  is_timestamp "2025-06-01 09:05:07" = true.
Proof.
  split; [exact morning_in_range|].
  split; [exact hello_task_is_task_request|].
  split; [|split]; reflexivity.
Qed.

(* ------------------------------------------------------------------ *)
(** ** Validation failures *)

Lemma handle_task_invalid now data e :
  data <> PyNone ->
  read_fields data = Raise e ->
  handle_task now (json_post data)
  = Return (error_body ("Invalid task format: " ++ str_of_exn e), 400).
Proof.
  intros Hnone Hread.
  unfold handle_task, json_post, get_json, bind; cbn [is_json body negb].
  rewrite Hread, (read_fields_raises_caught _ _ Hread).
  destruct data; try reflexivity. now elim Hnone.
Qed.

Lemma getitem_dict_missing entries k :
  lookup k entries = None ->
  getitem (PyDict entries) (Key k) = Raise (KeyError (Key k)).
Proof. intros H; simpl; now rewrite H. Qed.

Ltac read_step :=
  match goal with
  | E : lookup ?k ?entries = Some ?v |- _ => rewrite (getitem_dict entries k v E)
  | E : lookup ?k ?entries = None |- _ => rewrite (getitem_dict_missing entries k E)
  | |- _ => rewrite getitem_first
  end; cbn [bind].

(** Each named defect makes the reads raise the exception of that text. *)
Lemma defect_raises data detail :
  defect data detail ->
  exists e, read_fields data = Raise e /\ str_of_exn e = detail.
Proof.
  intros H; destruct H; unfold read_fields; repeat read_step;
    eexists; split; reflexivity.
Qed.

Lemma missing_id_task_is_no_task_request task_id message :
  ~ task_request missing_id_task task_id message.
Proof.
  intros [entries fields part others text Hdata Hid _ _ _ _].
  inversion Hdata; subst. discriminate Hid.
Qed.

(** C4, as the code has it.  For a non-null body sent as JSON the reads of
    [data['id']] and [data['message']['parts'][0]['text']] decide.  When they
    fail, because a key is missing, [parts] is empty, or the body, [message],
    [parts] or [parts[0]] cannot be subscripted that way, the answer is a 400
    with status [error] and the message ["Invalid task format: "] followed by
    the text of the [KeyError], [IndexError] or [TypeError] raised: the
    quoted name of the key when [id], [message], [parts] or [text] is
    missing, the list's ["list index out of range"] when [parts] is empty.
    When they succeed the body is answered 200, whatever the values of [id]
    and [text] are: their shape is not looked at. *)
Theorem invalid_task_gets_400_with_exception_text now data :
  data <> PyNone ->
  ((forall task_id message, ~ task_request data task_id message) ->
   exists e message,
     read_fields data = Raise e /\
     caught e = true /\
     message = "Invalid task format: " ++ str_of_exn e /\
     serve now (PostTasksSend (json_post data)) = Json 400 (error_body message) /\
     getitem (error_body message) (Key "status") = Return (PyStr "error") /\
     getitem (error_body message) (Key "message") = Return (PyStr message) /\
     (forall detail, defect data detail -> str_of_exn e = detail)) /\
  (forall task_id message,
     task_request data task_id message ->
     serve now (PostTasksSend (json_post data))
     = Json 200 (success task_id message (reply_message now))).
Proof.
  intros Hnone. split.
  - intros Hinvalid.
    destruct (read_fields data) as [[task_id text]|e] eqn:Hread.
    + destruct (read_fields_only_task_request _ _ _ Hread) as [message Hm].
      now elim (Hinvalid task_id message).
    + exists e, ("Invalid task format: " ++ str_of_exn e).
      split; [reflexivity|].
      split; [exact (read_fields_raises_caught _ _ Hread)|].
      split; [reflexivity|].
      split; [unfold serve; now rewrite (handle_task_invalid now _ _ Hnone Hread)|].
      split; [reflexivity|]. split; [reflexivity|].
      intros detail Hdefect.
      destruct (defect_raises _ _ Hdefect) as (e' & He' & Hdetail).
      congruence.
  - intros task_id message Hrequest. unfold serve.
    now rewrite (handle_task_success now _ _ _ Hrequest).
Qed.

Lemma invalid_task_gets_400_with_exception_text_witness :
  missing_id_task <> PyNone /\
  (forall task_id message, ~ task_request missing_id_task task_id message) /\
  exists e message,
    read_fields missing_id_task = Raise e /\
    caught e = true /\
    message = "Invalid task format: " ++ str_of_exn e /\
    serve morning (PostTasksSend (json_post missing_id_task))
    = Json 400 (error_body message) /\
    getitem (error_body message) (Key "status") = Return (PyStr "error") /\
    getitem (error_body message) (Key "message") = Return (PyStr message) /\
    (forall detail, defect missing_id_task detail -> str_of_exn e = detail).
Proof.
  split; [discriminate|].
  split; [exact missing_id_task_is_no_task_request|].
  apply (invalid_task_gets_400_with_exception_text morning missing_id_task).
  - discriminate.
  - exact missing_id_task_is_no_task_request.
Defined.

(** C4 as stated fails twice.  A task with an empty [parts] list gets a 400
    whose message is the list's complaint and names neither [parts] nor
    [message], while a task without [id] does get a message that names
    ['id'].  And a body whose [id] and [text] are numbers, not strings, is no
    error at all: it is answered 200. *)
Lemma empty_parts_message_names_no_field :
  empty_parts_task <> PyNone /\
  defect empty_parts_task "list index out of range" /\
  serve morning (PostTasksSend (json_post empty_parts_task))
  = Json 400 (error_body "Invalid task format: list index out of range") /\
  contains "parts" "Invalid task format: list index out of range" = false /\
  contains "message" "Invalid task format: list index out of range" = false /\
  serve morning (PostTasksSend (json_post missing_id_task))
  = Json 400 (error_body "Invalid task format: 'id'") /\
  contains "'id'" "Invalid task format: 'id'" = true /\
  serve morning (PostTasksSend (json_post numeric_text_task))
  = Json 200
      (success (PyInt 7)
         (PyDict [("parts", PyList [PyDict [("text", PyInt 42)]])])
         (reply_message morning)).
Proof.
  split; [discriminate|].
  split; [eapply EmptyParts; reflexivity|].
  repeat split; reflexivity.
Qed.

(* ------------------------------------------------------------------ *)
(** ** Bodies that do not decode, or decode to nothing *)

(** C5, at the code.  For a request whose body is not JSON, is JSON nested
    too deep to decode, or decodes to [null]: when the media type is not JSON
    the answer is the structured 400 ["Invalid JSON format"]; under a JSON
    media type [null] gets the structured 400 ["Request body is empty"],
    while a body that does not decode makes [request.json] raise before the
    [try], [BadRequest] for bytes that are not JSON, which leaves as the
    framework's 400 page, and [RecursionError] for nesting too deep, which
    leaves as a 500. *)
Theorem undecodable_or_null_body_outcomes now req :
  body req = Malformed \/
  (exists complaint, body req = Overflowing complaint) \/
  body req = Loaded PyNone ->
  (is_json req = false ->
   serve now (PostTasksSend req) = Json 400 (error_body "Invalid JSON format")) /\
  (is_json req = true -> body req = Loaded PyNone ->
   serve now (PostTasksSend req) = Json 400 (error_body "Request body is empty")) /\
  (is_json req = true -> body req = Malformed ->
   serve now (PostTasksSend req) = ErrorPage 400) /\
  (is_json req = true ->
   forall complaint, body req = Overflowing complaint ->
   serve now (PostTasksSend req) = ErrorPage 500) /\
  (code_of (serve now (PostTasksSend req)) = 500
   <-> is_json req = true /\ exists complaint, body req = Overflowing complaint) /\
  (code_of (serve now (PostTasksSend req)) = 400
   <-> ~ (is_json req = true /\ exists complaint, body req = Overflowing complaint)).
Proof.
  destruct req as [[|] b]; cbn [body is_json];
    intros [-> | [[complaint ->] | ->]];
    repeat match goal with
           | |- _ /\ _ => split
           | |- _ <-> _ => split
           end;
    try reflexivity; try discriminate;
    try (intros; discriminate);
    try (intros; reflexivity);
    try (intros [H _]; discriminate H);
    try (intros [_ [c H]]; discriminate H);
    try (intros _; split; [reflexivity | eexists; reflexivity]);
    try (intros H; exfalso; apply H; split; [reflexivity | eexists; reflexivity]);
    try (intros _ [H _]; discriminate H);
    try (intros _ [_ [c H]]; discriminate H).
Qed.

Lemma undecodable_or_null_body_outcomes_witness :
  (body broken_json_post = Malformed \/
   (exists complaint, body broken_json_post = Overflowing complaint) \/
   body broken_json_post = Loaded PyNone) /\
  serve morning (PostTasksSend broken_json_post) = ErrorPage 400 /\
  (code_of (serve morning (PostTasksSend broken_json_post)) = 400
   <-> ~ (is_json broken_json_post = true /\
          exists complaint, body broken_json_post = Overflowing complaint)).
Proof.
  split; [left; reflexivity|].
  pose proof (undecodable_or_null_body_outcomes morning broken_json_post
                (or_introl eq_refl)) as (_ & _ & Hpage & _ & _ & Hcode).
  split; [exact (Hpage eq_refl eq_refl) | exact Hcode].
Defined.

(** The cases, run. *)
Example broken_json_post_gets_error_page :
  serve morning (PostTasksSend broken_json_post) = ErrorPage 400.
Proof. reflexivity. Qed.

Example deep_json_post_gets_500 :
  serve morning (PostTasksSend deep_json_post) = ErrorPage 500.
Proof. reflexivity. Qed.

Example plain_text_post_gets_structured_error :
  serve morning (PostTasksSend plain_text_post)
  = Json 400 (error_body "Invalid JSON format").
Proof. reflexivity. Qed.

Example empty_object_gets_structured_error :
  serve morning (PostTasksSend (json_post (PyDict [])))
  = Json 400 (error_body "Invalid task format: 'id'").
Proof. reflexivity. Qed.

(* ------------------------------------------------------------------ *)
(** ** Discovery *)

(** C6.  Every discovery call of a run is answered 200 with the one fixed
    descriptor (name, description, url, capabilities with both flags false,
    version), whatever the clock reads and whatever was served before; any
    two discovery calls of a run get the same response, hence the same bytes
    under any encoding of the content. *)
Theorem discovery_is_fixed calls i j now_i now_j :
  nth_error calls i = Some (now_i, GetAgentCard) ->
  nth_error calls j = Some (now_j, GetAgentCard) ->
  nth_error (run calls) i = Some (Json 200 agent_info) /\
  nth_error (run calls) j = nth_error (run calls) i /\
  (forall encode r_i r_j,
     nth_error (run calls) i = Some r_i ->
     nth_error (run calls) j = Some r_j ->
     on_the_wire encode r_i = on_the_wire encode r_j) /\
  getitem agent_info (Key "name") = Return (PyStr "Time Teller") /\
  getitem agent_info (Key "description")
  = Return (PyStr "An agent that tells the current time based on the provided timezone.") /\
  getitem agent_info (Key "url") = Return (PyStr "http://localhost:5000/tell_time") /\
  getitem agent_info (Key "capabilities")
  = Return (PyDict [("streaming", PyBool false); ("pushNotifications", PyBool false)]) /\
  getitem agent_info (Key "version") = Return (PyStr "1.0.0").
Proof.
  intros Hi Hj.
  assert (Ri : nth_error (run calls) i = Some (Json 200 agent_info)).
  { unfold run. rewrite nth_error_map, Hi. reflexivity. }
  assert (Rj : nth_error (run calls) j = Some (Json 200 agent_info)).
  { unfold run. rewrite nth_error_map, Hj. reflexivity. }
  split; [exact Ri|]. split; [now rewrite Ri, Rj|].
  split.
  - intros encode r_i r_j Hri Hrj. congruence.
  - repeat split.
Qed.

Lemma discovery_is_fixed_witness :
  nth_error two_discoveries 0 = Some (morning, GetAgentCard) /\
  nth_error two_discoveries 2 = Some (evening, GetAgentCard) /\
  nth_error (run two_discoveries) 0 = Some (Json 200 agent_info) /\
  nth_error (run two_discoveries) 2 = nth_error (run two_discoveries) 0.
Proof.
  split; [reflexivity|]. split; [reflexivity|].
  pose proof (discovery_is_fixed two_discoveries 0 2 morning evening
                eq_refl eq_refl) as H.
  split; [exact (proj1 H) | exact (proj1 (proj2 H))].
Defined.

(* ------------------------------------------------------------------ *)
(** ** The client *)

Section ClientProperties.

Import Requests TimeClient.

Variable net : network.

(** Each helper issues exactly one call, whatever comes back. *)
Lemma discover_agent_one_call sent :
  snd (discover_agent net sent)
  = (sent ++ [GET (base_url ++ "/.well-known/agent.json")])%list.
Proof.
  unfold discover_agent, cbind, perform.
  destruct (net _ _) as [r|msg]; [|reflexivity].
  destruct (negb _); [reflexivity|].
  unfold json_of; destruct (json r); reflexivity.
Qed.

Lemma send_task_one_call task_id message sent :
  snd (send_task net task_id message sent)
  = (sent ++ [POST (base_url ++ "/tasks/send") (payload_of task_id message)])%list.
Proof.
  unfold send_task, cbind, perform.
  destruct (net _ _) as [r|msg]; [|reflexivity].
  destruct (_ =? _); [|reflexivity].
  unfold json_of; destruct (json r); reflexivity.
Qed.

(** C8, as the code has it.  When the remote side answers, discovery raises
    its ["Failed to discover agent"] exception exactly when the status is
    not 200, and [send_task] raises its ["Failed to send task"] exception
    exactly when the status is not 200; on 200 [send_task] returns the
    decoded body; each issues one call and no second one. *)
Theorem client_raises_exactly_on_non_200 sent task_id message r_d r_t :
  net (List.length sent) (GET (base_url ++ "/.well-known/agent.json"))
  = Answered r_d ->
  net (List.length sent)
      (POST (base_url ++ "/tasks/send") (payload_of task_id message))
  = Answered r_t ->
  ((exists msg, fst (discover_agent net sent) = Raise (Exception msg))
   <-> status_code r_d <> 200) /\
  ((exists msg, fst (send_task net task_id message sent) = Raise (Exception msg))
   <-> status_code r_t <> 200) /\
  (status_code r_t = 200 -> forall v, json r_t = Some v ->
   fst (send_task net task_id message sent) = Return v) /\
  snd (discover_agent net sent)
  = (sent ++ [GET (base_url ++ "/.well-known/agent.json")])%list /\
  snd (send_task net task_id message sent)
  = (sent ++ [POST (base_url ++ "/tasks/send") (payload_of task_id message)])%list.
Proof.
  intros Hd Ht.
  split; [|split; [|split; [|split]]].
  - unfold discover_agent, cbind, perform. rewrite Hd.
    destruct (Z.eqb_spec (status_code r_d) 200) as [E|E]; cbn [negb].
    + split; [|now intros].
      intros [msg H]. unfold json_of in H.
      destruct (json r_d); discriminate H.
    + split; [now intros|]. intros _. eexists. reflexivity.
  - unfold send_task, cbind, perform. rewrite Ht.
    destruct (Z.eqb_spec (status_code r_t) 200) as [E|E].
    + split; [|now intros].
      intros [msg H]. unfold json_of in H.
      destruct (json r_t); discriminate H.
    + split; [now intros|]. intros _. eexists. reflexivity.
  - intros E v Hv. unfold send_task, cbind, perform. rewrite Ht.
    rewrite E. cbn [Z.eqb Pos.eqb]. unfold json_of. rewrite Hv. reflexivity.
  - apply discover_agent_one_call.
  - apply send_task_one_call.
Qed.

End ClientProperties.

Lemma client_raises_exactly_on_non_200_witness :
  ((exists msg,
      fst (TimeClient.discover_agent always_ok []) = Raise (Exception msg))
   <-> Requests.status_code ok_empty <> 200) /\
  ((exists msg,
      fst (TimeClient.send_task always_ok "t1" "hello" []) = Raise (Exception msg))
   <-> Requests.status_code ok_empty <> 200) /\
  (Requests.status_code ok_empty = 200 ->
   forall v, Requests.json ok_empty = Some v ->
   fst (TimeClient.send_task always_ok "t1" "hello" []) = Return v) /\
  snd (TimeClient.discover_agent always_ok [])
  = [Requests.GET (TimeClient.base_url ++ "/.well-known/agent.json")] /\
  snd (TimeClient.send_task always_ok "t1" "hello" [])
  = [Requests.POST (TimeClient.base_url ++ "/tasks/send")
       (TimeClient.payload_of "t1" "hello")].
Proof.
  exact (client_raises_exactly_on_non_200 always_ok [] "t1" "hello"
           ok_empty ok_empty eq_refl eq_refl).
Defined.

(** C8 as stated fails: 201 is a 2xx status, and both helpers raise on it. *)
Lemma client_raises_on_201 :
  200 <= Requests.status_code created < 300 /\
  fst (TimeClient.discover_agent always_created [])
  = Raise (Exception "Failed to discover agent: 201 {}") /\
  fst (TimeClient.send_task always_created "t1" "hello" [])
  = Raise (Exception "Failed to send task: 201 {}").
Proof.
  split; [cbn; lia|]. split; reflexivity.
Qed.

(** On 200 the decoded body comes back. *)
Example send_task_returns_body_on_200 :
  fst (TimeClient.send_task always_ok "t1" "hello" []) = Return (PyDict []).
Proof. reflexivity. Qed.

(* ------------------------------------------------------------------ *)
(** ** The weather tool *)

Lemma contains_unfold needle haystack :
  contains needle haystack
  = String.prefix needle haystack
    || match haystack with
       | EmptyString => false
       | String _ rest => contains needle rest
       end.
Proof. destruct haystack; reflexivity. Qed.

Lemma prefix_append s t : String.prefix s (s ++ t) = true.
Proof.
  induction s as [|c s IH]; simpl.
  - destruct t; reflexivity.
  - destruct (ascii_dec c c); [exact IH | congruence].
Qed.

(** A text contains what it was assembled around. *)
Lemma contains_infix before s after :
  contains s (before ++ s ++ after) = true.
Proof.
  induction before as [|c before IH].
  - simpl append. rewrite contains_unfold, prefix_append. reflexivity.
  - simpl append.
    change (contains s (String c (before ++ s ++ after)))
      with (String.prefix s (String c (before ++ s ++ after))
            || contains s (before ++ s ++ after)).
    rewrite IH. apply orb_true_r.
Qed.

Lemma lookup_mock_weather_db_unknown key :
  key <> "newyork" -> key <> "london" -> key <> "tokyo" ->
  lookup key Weather.mock_weather_db = None.
Proof.
  intros N1 N2 N3. unfold Weather.mock_weather_db, lookup.
  apply String.eqb_neq in N1, N2, N3. now rewrite N1, N2, N3.
Qed.

Section WeatherProperties.

Import Weather.

(** Whatever stdout does with a line, and whatever case mapping the
    interpreter applies. *)
Variable print : string -> result unit.
Variable lower : string -> string.

(** The exception of a [print] that fails is the exception of the tool. *)
Lemma get_weather_print_raises (city : string) (e : exn) :
  print (tool_log city) = Raise e -> get_weather print lower city = Raise e.
Proof. unfold get_weather, bind. now intros ->. Qed.

(** C9, as the code has it.  For every name whose log line [print] can
    write, [get_weather] returns and does not raise.  Its result has status
    [success], with the canned report of the city, exactly when the name
    lower-cased and with its spaces removed is [newyork], [london] or
    [tokyo]; for every other name the result has status [error] and an
    [error_message] that quotes the name as it was given. *)
Theorem get_weather_by_normalized_name (city : string) :
  print (tool_log city) = Return tt ->
  (exists answer, get_weather print lower city = Return answer) /\
  ((exists answer,
      get_weather print lower city = Return answer /\
      getitem answer (Key "status") = Return (PyStr "success"))
   <-> In (replace " " "" (lower city)) ["newyork"; "london"; "tokyo"]) /\
  (replace " " "" (lower city) = "newyork" ->
   get_weather print lower city
   = Return (PyDict [
       ("status", PyStr "success");
       ("report", PyStr "The weather in New York is sunny with a temperature of 25°C.")])) /\
  (replace " " "" (lower city) = "london" ->
   get_weather print lower city
   = Return (PyDict [
       ("status", PyStr "success");
       ("report", PyStr "It's cloudy in London with a temperature of 15°C.")])) /\
  (replace " " "" (lower city) = "tokyo" ->
   get_weather print lower city
   = Return (PyDict [
       ("status", PyStr "success");
       ("report", PyStr "Tokyo is experiencing light rain and a temperature of 18°C.")])) /\
  (~ In (replace " " "" (lower city)) ["newyork"; "london"; "tokyo"] ->
   exists message,
     get_weather print lower city
     = Return (PyDict [("status", PyStr "error"); ("error_message", PyStr message)]) /\
     message = "Sorry, I don't have weather information for '" ++ city ++ "'." /\
     contains city message = true).
Proof.
  intros Hprint. unfold get_weather, normalize, bind. rewrite Hprint.
  generalize (replace " " "" (lower city)) as key; intros key.
  destruct (String.eqb_spec key "newyork") as [->|N1];
    [|destruct (String.eqb_spec key "london") as [->|N2];
      [|destruct (String.eqb_spec key "tokyo") as [->|N3]]].
  1-3: cbn [dict_contains lookup mock_weather_db String.eqb Ascii.eqb Bool.eqb
            getitem];
    (split; [eexists; reflexivity|]);
    (split; [split; [intros _; simpl; tauto
                    | intros _; eexists; split; reflexivity]|]);
    repeat split; try discriminate; try reflexivity;
    intros H; exfalso; apply H; simpl; tauto.
  assert (Hnot : ~ In key ["newyork"; "london"; "tokyo"]).
  { simpl. intros [H|[H|[H|[]]]]; congruence. }
  unfold dict_contains.
  rewrite (lookup_mock_weather_db_unknown key N1 N2 N3).
  split; [eexists; reflexivity|].
  split.
  { split; [|intros H; now elim Hnot].
    intros (answer & Hanswer & Hstatus). inversion Hanswer; subst.
    discriminate Hstatus. }
  do 3 (split; [intros H; congruence|]).
  intros _. eexists. split; [reflexivity|]. split; [reflexivity|].
  apply contains_infix.
Qed.

End WeatherProperties.

Lemma get_weather_by_normalized_name_witness :
  Weather.quiet_print (Weather.tool_log "New York") = Return tt /\
  (exists answer,
     Weather.get_weather Weather.quiet_print Weather.ascii_lower "New York"
     = Return answer) /\
  ((exists answer,
      Weather.get_weather Weather.quiet_print Weather.ascii_lower "New York"
      = Return answer /\
      getitem answer (Key "status") = Return (PyStr "success"))
   <-> In (Weather.replace " " "" (Weather.ascii_lower "New York"))
          ["newyork"; "london"; "tokyo"]).
Proof.
  split; [reflexivity|].
  pose proof (get_weather_by_normalized_name Weather.quiet_print
                Weather.ascii_lower "New York" eq_refl) as (Hret & Hiff & _).
  split; [exact Hret | exact Hiff].
Defined.

(** C9 as stated fails: on a stdout whose encoding is ASCII the log line for
    Zürich cannot be written, and the [UnicodeEncodeError] of [print] leaves
    the tool before any dict is built. *)
Lemma get_weather_raises_on_unprintable_name :
  Weather.is_ascii (Weather.tool_log "Zürich") = false /\
  Weather.get_weather (Weather.ascii_print zurich_complaint)
    Weather.ascii_lower "Zürich"
  = Raise (UnicodeEncodeError
      "'ascii' codec can't encode character '\xfc' in position 40: ordinal not in range(128)").
Proof. split; reflexivity. Qed.

(** The tool on ASCII names. *)
Example get_weather_new_york :
  Weather.get_weather Weather.quiet_print Weather.ascii_lower "New York"
  = Return (PyDict [
      ("status", PyStr "success");
      ("report", PyStr "The weather in New York is sunny with a temperature of 25°C.")]).
Proof. reflexivity. Qed.

Example get_weather_paris :
  Weather.get_weather Weather.quiet_print Weather.ascii_lower "Paris"
  = Return (PyDict [
      ("status", PyStr "error");
      ("error_message", PyStr "Sorry, I don't have weather information for 'Paris'.")]).
Proof. reflexivity. Qed.

(* ================================================================== *)
(** * Further properties of the code *)

(** ** The task endpoint, case by case *)

Lemma task_request_functional data task_id message task_id' message' :
  task_request data task_id message ->
  task_request data task_id' message' ->
  task_id = task_id' /\ message = message'.
Proof.
  intros [entries ? ? ? ? -> Hid Hmsg _ _ _]
         [entries' ? ? ? ? Heq Hid' Hmsg' _ _ _].
  inversion Heq; subst. split; congruence.
Qed.

(** X1.  The endpoint answers 200 exactly to a TaskRequest sent with a JSON
    media type, and then with the success envelope of its id, its message
    and the reply of that instant: neither [role], [metadata] nor the type
    of [id] or [text] is looked at. *)
Theorem accepted_exactly_task_requests now req content :
  serve now (PostTasksSend req) = Json 200 content
  <-> exists data task_id message,
        req = json_post data /\
        task_request data task_id message /\
        content = success task_id message (reply_message now).
Proof.
  split.
  - intros H.
    destruct (accepted_is_task_request _ _ _ H) as (data & tid & msg & -> & Hreq).
    exists data, tid, msg. split; [reflexivity|]. split; [exact Hreq|].
    unfold serve in H. rewrite (handle_task_success now _ _ _ Hreq) in H.
    cbn [full_dispatch] in H. congruence.
  - intros (data & tid & msg & -> & Hreq & ->).
    unfold serve. now rewrite (handle_task_success now _ _ _ Hreq).
Qed.

(** X2.  Every POST to the endpoint ends in one of six ways: the success
    envelope; ["Invalid JSON format"] when the media type is not JSON,
    whatever the body; ["Request body is empty"] for [null];
    ["Invalid task format: ..."] with the text of the exception for any
    other body that is no TaskRequest; the framework's 400 page for bytes
    that are not JSON; and a 500 for JSON nested too deep to decode, the one
    request the handler does not answer itself or hand to a 400. *)
Theorem task_endpoint_outcomes now req :
  (exists data task_id message,
     req = json_post data /\ task_request data task_id message /\
     serve now (PostTasksSend req)
     = Json 200 (success task_id message (reply_message now))) \/
  (is_json req = false /\
   serve now (PostTasksSend req) = Json 400 (error_body "Invalid JSON format")) \/
  (req = json_post PyNone /\
   serve now (PostTasksSend req) = Json 400 (error_body "Request body is empty")) \/
  (exists data e,
     req = json_post data /\ data <> PyNone /\ read_fields data = Raise e /\
     serve now (PostTasksSend req)
     = Json 400 (error_body ("Invalid task format: " ++ str_of_exn e))) \/
  (req = {| is_json := true; body := Malformed |} /\
   serve now (PostTasksSend req) = ErrorPage 400) \/
  (exists complaint,
     req = {| is_json := true; body := Overflowing complaint |} /\
     serve now (PostTasksSend req) = ErrorPage 500).
Proof.
  destruct req as [[|] [|complaint|data]].
  - right; right; right; right; left. split; reflexivity.
  - right; right; right; right; right. exists complaint. split; reflexivity.
  - change {| is_json := true; body := Loaded data |} with (json_post data).
    destruct (read_fields data) as [[task_id text]|e] eqn:Hread.
    + left. destruct (read_fields_only_task_request _ _ _ Hread) as [message Hm].
      exists data, task_id, message. split; [reflexivity|]. split; [exact Hm|].
      unfold serve. now rewrite (handle_task_success now _ _ _ Hm).
    + assert (Hnone : data = PyNone \/ data <> PyNone)
        by (destruct data; (left; reflexivity) || (right; discriminate)).
      destruct Hnone as [-> | Hnone].
      * right; right; left. split; reflexivity.
      * right; right; right; left. exists data, e.
        split; [reflexivity|]. split; [exact Hnone|]. split; [exact Hread|].
        unfold serve. now rewrite (handle_task_invalid now data e Hnone Hread).
  - right; left. split; reflexivity.
  - right; left. split; reflexivity.
  - right; left. split; reflexivity.
Qed.

(* ------------------------------------------------------------------ *)
(** ** The reply text and the clock *)

Import Digits.

Lemma zero_padded_2_read_back n :
  0 <= n <= 99 -> int_of_digits (zero_padded 2 n) = n.
Proof.
  intros H. apply Z.eqb_eq.
  apply (checked_on_range (fun n => int_of_digits (zero_padded 2 n) =? n) 0 100).
  - vm_compute; reflexivity.
  - lia.
Qed.

Lemma zero_padded_4_read_back n :
  1000 <= n <= 9999 -> int_of_digits (zero_padded 4 n) = n.
Proof.
  intros H. apply Z.eqb_eq.
  apply (checked_on_range (fun n => int_of_digits (zero_padded 4 n) =? n) 1000
           (Z.to_nat 9000)).
  - vm_compute; reflexivity.
  - lia.
Qed.

Lemma zero_padded_2_inj m n :
  0 <= m <= 99 -> 0 <= n <= 99 -> zero_padded 2 m = zero_padded 2 n -> m = n.
Proof.
  intros Hm Hn E.
  rewrite <- (zero_padded_2_read_back m Hm), <- (zero_padded_2_read_back n Hn).
  now rewrite E.
Qed.

Lemma zero_padded_4_inj m n :
  1000 <= m <= 9999 -> 1000 <= n <= 9999 ->
  zero_padded 4 m = zero_padded 4 n -> m = n.
Proof.
  intros Hm Hn E.
  rewrite <- (zero_padded_4_read_back m Hm), <- (zero_padded_4_read_back n Hn).
  now rewrite E.
Qed.

(** The six fields, cut out of an equality of two timestamps. *)
Lemma strftime_fields a b :
  in_range a -> in_range b ->
  strftime "%Y-%m-%d %H:%M:%S" a = strftime "%Y-%m-%d %H:%M:%S" b ->
  zero_padded 4 (year a) = zero_padded 4 (year b) /\
  zero_padded 2 (month a) = zero_padded 2 (month b) /\
  zero_padded 2 (day a) = zero_padded 2 (day b) /\
  zero_padded 2 (hour a) = zero_padded 2 (hour b) /\
  zero_padded 2 (minute a) = zero_padded 2 (minute b) /\
  zero_padded 2 (second a) = zero_padded 2 (second b).
Proof.
  intros (Hy & Hm & Hd & HH & HM & HS) (Hy' & Hm' & Hd' & HH' & HM' & HS').
  rewrite !strftime_iso.
  destruct (four_digits_inv _ (zero_padded_four_digits (year a) Hy))
    as (? & ? & ? & ? & -> & _).
  destruct (four_digits_inv _ (zero_padded_four_digits (year b) Hy'))
    as (? & ? & ? & ? & -> & _).
  repeat match goal with
         | |- context [zero_padded 2 ?n] =>
             let H := fresh in
             destruct (two_digits_inv _ (zero_padded_two_digits n ltac:(lia)))
               as (? & ? & H & _); rewrite H; clear H
         end.
  cbn [append]. intros E. inversion E; subst. repeat split.
Qed.

(** X3.  Two clock readings in range give the same reply text exactly when
    they agree down to the second: the text tells year, month, day, hour,
    minute and second apart, and nothing of the microseconds. *)
Theorem reply_text_tells_the_second a b :
  in_range a -> in_range b ->
  (reply_text a = reply_text b <-> same_second a b).
Proof.
  intros Ha Hb. unfold reply_text, same_second. split.
  - intros E. cbn [append] in E. inversion E as [E'].
    destruct (strftime_fields a b Ha Hb E') as (Ey & Em & Ed & EH & EM & ES).
    destruct Ha as (? & ? & ? & ? & ? & ?), Hb as (? & ? & ? & ? & ? & ?).
    split; [apply zero_padded_4_inj; assumption|].
    repeat split; apply zero_padded_2_inj; (assumption || lia).
  - intros (Ey & Em & Ed & EH & EM & ES).
    rewrite !strftime_iso, Ey, Em, Ed, EH, EM, ES. reflexivity.
Qed.

Lemma morning_later_in_range : in_range morning_later.
Proof. unfold in_range, morning_later; cbn; lia. Qed.

Lemma reply_text_tells_the_second_witness :
  in_range morning /\ in_range morning_later /\
  (reply_text morning = reply_text morning_later
   <-> same_second morning morning_later).
Proof.
  split; [exact morning_in_range|]. split; [exact morning_later_in_range|].
  exact (reply_text_tells_the_second morning morning_later
           morning_in_range morning_later_in_range).
Defined.

(* ------------------------------------------------------------------ *)
(** ** The client and the server together *)

Lemma payload_is_task_request task_id message :
  task_request (TimeClient.payload_of task_id message) (PyStr task_id)
    (PyDict [
       ("role", PyStr "user");
       ("parts", PyList [PyDict [("text", PyStr message)]]);
       ("metadata", PyDict [])]).
Proof. econstructor; reflexivity. Qed.

(** X4.  Whatever task id and message the client is given, the payload
    [send_task] builds is one the endpoint accepts: it is answered 200 with
    the id and the user message echoed and one agent reply. *)
Theorem client_payload_is_accepted now task_id message :
  serve now (PostTasksSend (json_post (TimeClient.payload_of task_id message)))
  = Json 200
      (success (PyStr task_id)
         (PyDict [
            ("role", PyStr "user");
            ("parts", PyList [PyDict [("text", PyStr message)]]);
            ("metadata", PyDict [])])
         (reply_message now)).
Proof.
  unfold serve.
  now rewrite (handle_task_success now _ _ _ (payload_is_task_request task_id message)).
Qed.

Section LoopbackProperties.

Import Requests TimeClient Loopback.

Variable encode : value -> string.
Variable page : Z -> string.
Variable clock : nat -> datetime.
Variable page_complaint : Z -> string.

(** X5.  Against the server of tell_time_server.py, neither discovery nor
    [send_task] raises.  Discovery returns the agent card and [send_task]
    the success envelope for its own id and message, with the reply of the
    instant the call arrived, each as [jsonify] wrote it: the same fields
    with the keys of every object in sorted order. *)
Theorem client_against_server sent task_id message :
  fst (discover_agent (remote encode page clock page_complaint) sent)
  = Return (sort_keys agent_info) /\
  sort_keys agent_info
  = PyDict [
      ("capabilities",
        PyDict [("pushNotifications", PyBool false); ("streaming", PyBool false)]);
      ("description",
        PyStr "An agent that tells the current time based on the provided timezone.");
      ("name", PyStr "Time Teller");
      ("url", PyStr "http://localhost:5000/tell_time");
      ("version", PyStr "1.0.0")
    ] /\
  fst (send_task (remote encode page clock page_complaint) task_id message sent)
  = Return
      (PyDict [
         ("id", PyStr task_id);
         ("messages", PyList [
            PyDict [
              ("metadata", PyDict []);
              ("parts", PyList [PyDict [("text", PyStr message)]]);
              ("role", PyStr "user")];
            PyDict [
              ("metadata", PyDict []);
              ("parts", PyList [
                 PyDict [("text", PyStr (reply_text (clock (List.length sent))))]]);
              ("role", PyStr "agent")]]);
         ("status", PyStr "success")]).
Proof.
  split; [|split].
  - unfold discover_agent, cbind, perform, remote.
    rewrite String.eqb_refl. reflexivity.
  - reflexivity.
  - unfold send_task, cbind, perform, remote.
    rewrite String.eqb_refl. unfold serve.
    rewrite (handle_task_success _ _ _ _ (payload_is_task_request task_id message)).
    reflexivity.
Qed.

End LoopbackProperties.

(* ------------------------------------------------------------------ *)
(** ** time_client.py run as a program *)

Section ScriptProperties.

Import Requests TimeClient ClientScript.

Variable net : network.
Variable dumps : value -> string.

(** X6.  When discovery raises, for a status other than 200, a body that is
    not JSON or a remote side that cannot be reached, the program stops with
    that exception: nothing is printed, and the discovery GET is the only
    call ever issued; no task is sent. *)
Theorem failed_discovery_sends_no_task task_id sent e :
  fst (discover_agent net sent) = Raise e ->
  fst (script net dumps task_id sent) = Raise e /\
  snd (script net dumps task_id sent)
  = (sent ++ [GET (base_url ++ "/.well-known/agent.json")])%list.
Proof.
  intros H. pose proof (discover_agent_one_call net sent) as Hcalls.
  unfold script, cbind.
  destruct (discover_agent net sent) as [r sent']; cbn [fst snd] in *.
  subst r sent'. split; reflexivity.
Qed.

(** X7.  Once discovery has returned, no failure of the task submission
    stops the program: it issues the GET and then one POST of the fixed
    question, and what it prints, on a stdout that takes its lines, is either the
    decoded response after ["Task response:"], for a 200 whose body is JSON,
    or one line ["Error: ..."] in place of a traceback: with the status and
    the body for any other status, with the decoder's message for a 200
    whose body is not JSON, with the transport's message when there is no
    answer. *)
Theorem script_reports_failed_task task_id sent info :
  fst (discover_agent net sent) = Return info ->
  exists printed,
    fst (script net dumps task_id sent)
    = Return (["Agent discovered:"; dumps info] ++ printed)%list /\
    snd (script net dumps task_id sent)
    = (sent ++ [GET (base_url ++ "/.well-known/agent.json");
                POST (base_url ++ "/tasks/send")
                     (payload_of task_id "What is the current time?")])%list /\
    ((exists v, printed = ["Task response:"; dumps v]) \/
     (exists msg, printed = ["Error: " ++ msg])) /\
    (forall msg,
       net (S (List.length sent))
           (POST (base_url ++ "/tasks/send")
                 (payload_of task_id "What is the current time?"))
       = Unreachable msg ->
       printed = ["Error: " ++ msg]) /\
    (forall r,
       net (S (List.length sent))
           (POST (base_url ++ "/tasks/send")
                 (payload_of task_id "What is the current time?"))
       = Answered r ->
       (status_code r <> 200 ->
        printed = ["Error: Failed to send task: "
                   ++ str_of_int (status_code r) ++ " " ++ text r]) /\
       (status_code r = 200 -> forall v, json r = Some v ->
        printed = ["Task response:"; dumps v]) /\
       (status_code r = 200 -> json r = None ->
        printed = ["Error: " ++ json_error r])).
Proof.
  intros H. pose proof (discover_agent_one_call net sent) as Hcalls.
  unfold script, cbind.
  destruct (discover_agent net sent) as [r0 sent']; cbn [fst snd] in *.
  subst r0 sent'. unfold main, send_task, cbind, perform.
  assert (Hlen : List.length (sent ++ [GET (base_url ++ "/.well-known/agent.json")])
                 = S (List.length sent))
    by (rewrite length_app; simpl; lia).
  rewrite Hlen.
  destruct (net (S (List.length sent))
              (POST (base_url ++ "/tasks/send")
                    (payload_of task_id "What is the current time?")))
    as [r|msg].
  - destruct (Z.eqb_spec (status_code r) 200) as [E|E].
    + unfold json_of. destruct (json r) as [v|] eqn:Ejson.
      * exists ["Task response:"; dumps v]. cbn [fst snd ret raise].
        split; [reflexivity|]. split; [now rewrite <- app_assoc|].
        split; [left; eauto|]. split; [intros; discriminate|].
        intros r' Hr'. inversion Hr'; subst r'.
        split; [intros; contradiction|].
        split; [intros _ v' Hv'; congruence | intros _ Hnone; congruence].
      * exists ["Error: " ++ json_error r]. cbn [fst snd ret raise str_of_exn].
        split; [reflexivity|]. split; [now rewrite <- app_assoc|].
        split; [right; eauto|]. split; [intros; discriminate|].
        intros r' Hr'. inversion Hr'; subst r'.
        split; [intros; contradiction|].
        split; [intros _ v' Hv'; congruence | intros _ _; reflexivity].
    + exists ["Error: Failed to send task: "
              ++ str_of_int (status_code r) ++ " " ++ text r].
      cbn [fst snd ret raise str_of_exn].
      split; [reflexivity|]. split; [now rewrite <- app_assoc|].
      split.
      { right. exists ("Failed to send task: "
                       ++ str_of_int (status_code r) ++ " " ++ text r).
        reflexivity. }
      split; [intros; discriminate|].
      intros r' Hr'. inversion Hr'; subst r'.
      split; [intros _; reflexivity|].
      split; intros; contradiction.
  - exists ["Error: " ++ msg]. cbn [fst snd ret raise str_of_exn].
    split; [reflexivity|]. split; [now rewrite <- app_assoc|].
    split; [right; eauto|].
    split; [intros msg' Hm; inversion Hm; reflexivity|].
    intros r' Hr'. discriminate Hr'.
Qed.

End ScriptProperties.

Lemma failed_discovery_sends_no_task_witness :
  fst (TimeClient.discover_agent always_unavailable [])
  = Raise (Exception "Failed to discover agent: 503 Service Unavailable") /\
  fst (ClientScript.script always_unavailable (fun _ => "{}") "t1" [])
  = Raise (Exception "Failed to discover agent: 503 Service Unavailable") /\
  snd (ClientScript.script always_unavailable (fun _ => "{}") "t1" [])
  = [Requests.GET (TimeClient.base_url ++ "/.well-known/agent.json")].
Proof.
  split; [reflexivity|].
  exact (failed_discovery_sends_no_task always_unavailable (fun _ => "{}") "t1" []
           (Exception "Failed to discover agent: 503 Service Unavailable")
           eq_refl).
Defined.

Lemma script_reports_failed_task_witness :
  fst (TimeClient.discover_agent tasks_unavailable []) = Return (PyDict []) /\
  exists printed,
    fst (ClientScript.script tasks_unavailable (fun _ => "{}") "t1" [])
    = Return (["Agent discovered:"; "{}"] ++ printed)%list.
Proof.
  split; [reflexivity|].
  destruct (script_reports_failed_task tasks_unavailable (fun _ => "{}") "t1" []
              (PyDict []) eq_refl) as (printed & Hprinted & _).
  exists printed. exact Hprinted.
Defined.

(** The program against a remote side whose task endpoint is down. *)
Example script_prints_error_line :
  fst (ClientScript.script tasks_unavailable (fun _ => "{}") "t1" [])
  = Return ["Agent discovered:"; "{}";
            "Error: Failed to send task: 503 Service Unavailable"].
Proof. reflexivity. Qed.

(* ------------------------------------------------------------------ *)
(** ** The weather tool and the spelling of a city *)

(** X8.  For a city the tool knows, the answer depends on the name only
    through its normal form: for any other spelling with the same
    lower-cased, space-free form the tool prints that spelling's own log line
    and returns the very same answer. *)
Theorem known_city_answer_ignores_spelling
        (print : string -> result unit) (lower : string -> string)
        (city city' : string) (answer : value) :
  Weather.normalize lower city = Weather.normalize lower city' ->
  Weather.get_weather print lower city = Return answer ->
  getitem answer (Key "status") = Return (PyStr "success") ->
  Weather.get_weather print lower city'
  = (_ <- print (Weather.tool_log city') ;; Return answer).
Proof.
  unfold Weather.get_weather, bind. intros <- Hanswer Hstatus.
  destruct (print (Weather.tool_log city)) as [[]|e]; [|discriminate Hanswer].
  destruct (print (Weather.tool_log city')) as [[]|e']; [|reflexivity].
  destruct (Weather.dict_contains (Weather.normalize lower city)
              Weather.mock_weather_db).
  - exact Hanswer.
  - inversion Hanswer; subst. discriminate Hstatus.
Qed.

Lemma known_city_answer_ignores_spelling_witness :
  Weather.get_weather Weather.quiet_print Weather.ascii_lower "n e w YORK"
  = Return (PyDict [
      ("status", PyStr "success");
      ("report", PyStr "The weather in New York is sunny with a temperature of 25°C.")]).
Proof.
  exact (known_city_answer_ignores_spelling Weather.quiet_print Weather.ascii_lower
           "New York" "n e w YORK" _ eq_refl eq_refl eq_refl).
Defined.

(* ------------------------------------------------------------------ *)
(** ** The reply [invoke] extracts from the runner's events *)

Section ResponseText.

Import GenAI TellTimeAgent AgentWords.

Lemma nth_error_last_event (earlier : list Event) (ev : Event) :
  nth_error (earlier ++ [ev]) (List.length (earlier ++ [ev]) - 1) = Some ev.
Proof.
  rewrite length_app. cbn [List.length].
  replace (List.length earlier + 1 - 1)%nat with (List.length earlier) by lia.
  rewrite nth_error_app2 by lia.
  now rewrite Nat.sub_diag.
Qed.

(** The reply is read off the last event alone. *)
Lemma response_text_last (earlier : list Event) (ev : Event) :
  response_text (earlier ++ [ev])
  = match content ev with
    | Some c =>
        match parts c with
        | Some ps => String.concat (String "010" "") (truthy_texts ps)
        | None => ""
        end
    | None => ""
    end.
Proof.
  unfold response_text. rewrite nth_error_last_event.
  destruct (content ev) as [c|]; [|reflexivity].
  destruct (parts c) as [[|p ps]|]; reflexivity.
Qed.

Lemma in_truthy_texts (ps : list Part) (t : string) :
  In t (truthy_texts ps)
  <-> exists p, In p ps /\ text p = Some t /\ t <> "".
Proof.
  induction ps as [|p ps IH]; cbn [truthy_texts In].
  - split; [tauto | intros (p & [] & _)].
  - unfold truthy_text.
    destruct p as [[[|c rest]|]]; cbn [text In]; rewrite ?IH.
    + split.
      * intros (q & Hq & Ht & Hne). exists q. auto.
      * intros (q & [<- | Hq] & Ht & Hne).
        -- cbn in Ht. inversion Ht; subst. now elim Hne.
        -- exists q. auto.
    + split.
      * intros [<- | (q & Hq & Ht & Hne)].
        -- eexists. split; [left; reflexivity|]. split; [reflexivity|discriminate].
        -- exists q. auto.
      * intros (q & [<- | Hq] & Ht & Hne).
        -- cbn in Ht. inversion Ht. now left.
        -- right. exists q. auto.
    + split.
      * intros (q & Hq & Ht & Hne). exists q. auto.
      * intros (q & [<- | Hq] & Ht & Hne).
        -- discriminate Ht.
        -- exists q. auto.
Qed.

Lemma append_eq_empty (a b : string) : a ++ b = "" -> a = "".
Proof. destruct a; [reflexivity | discriminate]. Qed.

Lemma append_associative (a b c : string) : (a ++ b) ++ c = a ++ b ++ c.
Proof. induction a as [|x a IH]; simpl; [reflexivity | now rewrite IH]. Qed.

(** Joining texts none of which is empty gives the empty text only for no
    text at all. *)
Lemma concat_eq_empty (sep : string) (l : list string) :
  (forall t, In t l -> t <> "") -> String.concat sep l = "" -> l = [].
Proof.
  destruct l as [|x [|y l]]; cbn [String.concat]; intros Hne E.
  - reflexivity.
  - now elim (Hne x (or_introl eq_refl)).
  - apply append_eq_empty in E. now elim (Hne x (or_introl eq_refl)).
Qed.

(** A joined text is assembled around each of its items. *)
Lemma concat_around (sep : string) (l : list string) (t : string) :
  In t l -> exists before after, String.concat sep l = before ++ t ++ after.
Proof.
  induction l as [|x l IH]; [intros []|].
  intros [<- | Hin].
  - destruct l as [|y l]; cbn [String.concat].
    + exists "", "". now rewrite append_empty_r.
    + exists "", (sep ++ String.concat sep (y :: l)). reflexivity.
  - destruct (IH Hin) as (before & after & E).
    destruct l as [|y l]; [destruct Hin|].
    cbn [String.concat]. cbn [String.concat] in E.
    exists (x ++ sep ++ before), after.
    rewrite E. now rewrite !append_associative.
Qed.

(** X11.  The reply is empty when the runner yields nothing, and otherwise
    is read off the last event alone, whatever came before it; it is
    non-empty exactly when a part of the last event has a text that is
    neither missing nor empty. *)
Theorem response_text_reads_last_event (events : list Event) :
  response_text [] = "" /\
  (forall earlier last_event,
     events = (earlier ++ [last_event])%list ->
     response_text events = response_text [last_event]) /\
  (response_text events <> "" <-> exists t, last_event_says events t).
Proof.
  split; [reflexivity|]. split.
  - intros earlier ev ->.
    rewrite response_text_last.
    change [ev] with (([] : list Event) ++ [ev])%list.
    now rewrite response_text_last.
  - split.
    + intros Hne.
      destruct (exists_last (l := events)) as (earlier & ev & ->).
      { intros ->. now apply Hne. }
      rewrite response_text_last in Hne.
      destruct (content ev) as [c|] eqn:Ec; [|now elim Hne].
      destruct (parts c) as [ps|] eqn:Eps; [|now elim Hne].
      destruct (truthy_texts ps) as [|t ts] eqn:Ets; [now elim Hne|].
      assert (Hin : In t (truthy_texts ps)) by (rewrite Ets; now left).
      apply in_truthy_texts in Hin. destruct Hin as (p & Hp & Ht & Hnonempty).
      exists t, earlier, ev, c, ps, p. auto 10.
    + intros (t & earlier & ev & c & ps & p & -> & Ec & Eps & Hp & Ht & Hne) E.
      rewrite response_text_last, Ec, Eps in E.
      apply concat_eq_empty in E.
      * assert (Hin : In t (truthy_texts ps))
          by (apply in_truthy_texts; eauto).
        rewrite E in Hin. destruct Hin.
      * intros t' Ht'. apply in_truthy_texts in Ht'.
        now destruct Ht' as (_ & _ & _ & ?).
Qed.

(** X12.  Every text of a part of the last event, when neither missing nor
    empty, occurs in the reply. *)
Theorem response_text_keeps_each_text (events : list Event) (t : string) :
  last_event_says events t ->
  contains t (response_text events) = true.
Proof.
  intros (earlier & ev & c & ps & p & -> & Ec & Eps & Hp & Ht & Hne).
  rewrite response_text_last, Ec, Eps.
  assert (Hin : In t (truthy_texts ps)) by (apply in_truthy_texts; eauto).
  destruct (concat_around (String "010" "") _ _ Hin) as (before & after & ->).
  apply contains_infix.
Qed.

End ResponseText.

Lemma two_part_event_says_the_time :
  AgentWords.last_event_says [tool_call_event; two_part_event] "09:05:07".
Proof.
  exists [tool_call_event], two_part_event,
    {| GenAI.role := Some "model";
       GenAI.parts := Some [{| GenAI.text := Some "2025-06-01" |};
                            {| GenAI.text := Some "" |};
                            {| GenAI.text := Some "09:05:07" |}] |},
    [{| GenAI.text := Some "2025-06-01" |};
     {| GenAI.text := Some "" |};
     {| GenAI.text := Some "09:05:07" |}],
    {| GenAI.text := Some "09:05:07" |}.
  repeat split; try reflexivity.
  - right; right; left; reflexivity.
  - discriminate.
Qed.

Lemma response_text_keeps_each_text_witness :
  contains "09:05:07"
    (TellTimeAgent.response_text [tool_call_event; two_part_event]) = true.
Proof.
  exact (response_text_keeps_each_text [tool_call_event; two_part_event]
           "09:05:07" two_part_event_says_the_time).
Defined.

(** The tool call before the reply is dropped, the empty part too, and the
    two texts are joined by a newline. *)
Example response_text_joins_the_parts :
  TellTimeAgent.response_text [tool_call_event; two_part_event]
  = "2025-06-01" ++ String "010" "09:05:07".
Proof. reflexivity. Qed.
